(** * Kriging surrogate model: openmdao/surrogate_models/kriging.py

    A shallow embedding of [KrigingSurrogate] and [FloatKrigingSurrogate].
    Floating-point numbers are idealised as real numbers; numpy arrays are
    a shape together with an indexing function, and every numpy operation
    that can raise on a shape mismatch returns in the error monad [res].
    Two places where the code's behaviour depends on more than real
    arithmetic are modelled explicitly: the element type of the query of
    [predict] (a value stored into an integer array is truncated) and the
    [nan] that [np.sqrt] returns on a negative argument.
    The two library routines the module calls, [scipy.linalg.svd] and
    [scipy.optimize.minimize], are parameters of the development. *)

From Stdlib Require Import Reals Lra Lia List String Bool Arith.
Import ListNotations.
Open Scope R_scope.

(** ** Python exceptions and the error monad *)

Module Py.

Inductive exn : Type :=
| ValueError (msg : string)
| RuntimeError (msg : string)
| IndexError (msg : string)
| AttributeError (attr : string)
| SystemExit.

Inductive res (A : Type) : Type :=
| Ok (a : A)
| Raise (e : exn).

Arguments Ok {A} a.
Arguments Raise {A} e.

Definition bind {A B : Type} (m : res A) (k : A -> res B) : res B :=
  match m with
  | Ok a => k a
  | Raise e => Raise e
  end.

End Py.

Import Py.

Declare Scope res_scope.
Delimit Scope res_scope with res.
Notation "x <- m ;; k" := (Py.bind m (fun x => k))
  (at level 61, m at next level, right associativity) : res_scope.
Open Scope res_scope.

(** ** numpy arrays *)

Module Np.

(** One-, two- and three-dimensional arrays of floats.  Entries outside
    the shape are never read by a well-shaped program. *)
Record arr1 : Type := mk1 { len : nat; at1 : nat -> R }.
Record arr2 : Type := mk2 { nrows : nat; ncols : nat; at2 : nat -> nat -> R }.
Record arr3 : Type :=
  mk3 { dim0 : nat; dim1 : nat; dim2 : nat; at3 : nat -> nat -> nat -> R }.

(** An array-like value: a scalar, a 1-D or a 2-D array. *)
Inductive ndarray : Type :=
| Arr0 (x : R)
| Arr1 (v : arr1)
| Arr2 (m : arr2).

(** Arrays from Python lists. *)
Definition of_list (l : list R) : arr1 :=
  mk1 (List.length l) (fun i => nth i l 0).

Definition of_rows (l : list (list R)) : arr2 :=
  mk2 (List.length l) (List.length (hd [] l)) (fun i j => nth j (nth i l []) 0).

(** [np.sum] over [range(n)], accumulated from the left. *)
Fixpoint rsum (n : nat) (f : nat -> R) : R :=
  match n with
  | O => 0
  | S k => rsum k f + f k
  end.

Definition zeros1 (n : nat) : arr1 := mk1 n (fun _ => 0).
Definition zeros2 (r c : nat) : arr2 := mk2 r c (fun _ _ => 0).
Definition zeros3 (a b c : nat) : arr3 := mk3 a b c (fun _ _ _ => 0).
Definition ones2 (r c : nat) : arr2 := mk2 r c (fun _ _ => 1).

Definition map1 (f : R -> R) (v : arr1) : arr1 :=
  mk1 (len v) (fun i => f (at1 v i)).
Definition map2 (f : R -> R) (m : arr2) : arr2 :=
  mk2 (nrows m) (ncols m) (fun i j => f (at2 m i j)).
Definition map3 (f : R -> R) (t : arr3) : arr3 :=
  mk3 (dim0 t) (dim1 t) (dim2 t) (fun i d j => f (at3 t i d j)).

(** [m.T] *)
Definition transpose (m : arr2) : arr2 :=
  mk2 (ncols m) (nrows m) (fun i j => at2 m j i).

(** [m[i, ...]] *)
Definition row (m : arr2) (i : nat) : arr1 :=
  mk1 (ncols m) (fun j => at2 m i j).

(** [m[k:, ...]] *)
Definition rows_from (m : arr2) (k : nat) : arr2 :=
  mk2 (nrows m - k) (ncols m) (fun i j => at2 m (k + i) j).

(** A 1-D array seen as one row, as broadcasting does. *)
Definition as_row (v : arr1) : arr2 :=
  mk2 1 (len v) (fun _ j => at1 v j).

(** [np.atleast_2d] *)
Definition atleast_2d (a : ndarray) : arr2 :=
  match a with
  | Arr0 x => mk2 1 1 (fun _ _ => x)
  | Arr1 v => as_row v
  | Arr2 m => m
  end.

(** Broadcasting of one axis: equal extents, or one of them is 1. *)
Definition bdim (p q : nat) : option nat :=
  if p =? q then Some p
  else if p =? 1 then Some q
  else if q =? 1 then Some p
  else None.

Definition bidx (p i : nat) : nat := if p =? 1 then O else i.

Definition broadcast_error : exn :=
  ValueError "operands could not be broadcast together"%string.

(** The elementwise result of shape [(r, c)] once the shapes are known to
    be compatible. *)
Definition elementwise2 (f : R -> R -> R) (r c : nat) (a b : arr2) : arr2 :=
  mk2 r c (fun i j =>
    f (at2 a (bidx (nrows a) i) (bidx (ncols a) j))
      (at2 b (bidx (nrows b) i) (bidx (ncols b) j))).

Definition broadcast2 (f : R -> R -> R) (a b : arr2) : res arr2 :=
  match bdim (nrows a) (nrows b), bdim (ncols a) (ncols b) with
  | Some r, Some c => Ok (elementwise2 f r c a b)
  | _, _ => Raise broadcast_error
  end.

Definition broadcast1 (f : R -> R -> R) (a b : arr1) : res arr1 :=
  match bdim (len a) (len b) with
  | Some n =>
      Ok (mk1 n (fun i => f (at1 a (bidx (len a) i)) (at1 b (bidx (len b) i))))
  | None => Raise broadcast_error
  end.

Definition dot_error : exn := ValueError "shapes not aligned"%string.

(** [np.dot] of a 2-D with a 2-D array. *)
Definition matmul (a b : arr2) : arr2 :=
  mk2 (nrows a) (ncols b)
    (fun i j => rsum (ncols a) (fun k => at2 a i k * at2 b k j)).

Definition dot_22 (a b : arr2) : res arr2 :=
  if ncols a =? nrows b then Ok (matmul a b) else Raise dot_error.

(** [np.dot] of a 1-D with a 2-D array. *)
Definition dot_12 (v : arr1) (m : arr2) : res arr1 :=
  if len v =? nrows m then
    Ok (mk1 (ncols m) (fun j => rsum (len v) (fun k => at1 v k * at2 m k j)))
  else Raise dot_error.

(** [np.dot] of a 2-D with a 1-D array. *)
Definition dot_21 (m : arr2) (v : arr1) : res arr1 :=
  if ncols m =? len v then
    Ok (mk1 (nrows m) (fun i => rsum (ncols m) (fun k => at2 m i k * at1 v k)))
  else Raise dot_error.

(** [np.dot] of a 1-D with a 3-D array: the sum runs over the second to
    last axis of the second operand. *)
Definition dot_13 (v : arr1) (t : arr3) : res arr2 :=
  if len v =? dim1 t then
    Ok (mk2 (dim0 t) (dim2 t)
          (fun i j => rsum (len v) (fun d => at1 v d * at3 t i d j)))
  else Raise dot_error.

(** [a.dot(b)] for a 2-D [a] and an arbitrary array [b]. *)
Definition dot_2n (a : arr2) (b : ndarray) : res ndarray :=
  match b with
  | Arr0 x => Ok (Arr2 (map2 (fun v => v * x) a))
  | Arr1 v => r <- dot_21 a v ;; Ok (Arr1 r)
  | Arr2 m => r <- dot_22 a m ;; Ok (Arr2 r)
  end.

(** [a.T] for an arbitrary array. *)
Definition nd_T (a : ndarray) : ndarray :=
  match a with
  | Arr2 m => Arr2 (transpose m)
  | _ => a
  end.

Definition einsum_error : exn :=
  ValueError "einsum operands do not match the subscripts"%string.

(** [np.einsum('i,ij->ij', v, m)] *)
Definition scale_rows (v : arr1) (m : arr2) : arr2 :=
  mk2 (nrows m) (ncols m) (fun i j => at1 v i * at2 m i j).

Definition einsum_i_ij (v : arr1) (m : arr2) : res arr2 :=
  if len v =? nrows m then Ok (scale_rows v m) else Raise einsum_error.

(** [np.einsum('i,j,ij->ij', a, b, m)] *)
Definition einsum_i_j_ij (a b : arr1) (m : ndarray) : res arr2 :=
  match m with
  | Arr2 m =>
      if (len a =? nrows m) && (len b =? ncols m) then
        Ok (mk2 (nrows m) (ncols m) (fun i j => at1 a i * at1 b j * at2 m i j))
      else Raise einsum_error
  | _ => Raise einsum_error
  end.

(** [np.mean(m, axis=0)] and [np.std(m, axis=0)] *)
Definition mean0 (m : arr2) : arr1 :=
  mk1 (ncols m) (fun j => rsum (nrows m) (fun i => at2 m i j) / INR (nrows m)).

Definition std0 (m : arr2) : arr1 :=
  mk1 (ncols m)
    (fun j => sqrt (rsum (nrows m)
                      (fun i => Rabs (at2 m i j - at1 (mean0 m) j) ^ 2)
                    / INR (nrows m))).

(** [v[v == 0.] = 1.] *)
Definition clamp_zero (v : arr1) : arr1 :=
  map1 (fun s => if Req_dec_T s 0 then 1 else s) v.

(** [m[m < 0.] = 0.] *)
Definition clamp_negative (m : arr2) : arr2 :=
  map2 (fun v => if Rlt_dec v 0 then 0 else v) m.

(** [for i in range(n): s = body(i, s)], stopping at the first exception. *)
Definition for_range {S : Type} (n : nat) (body : nat -> S -> res S) (s : S)
  : res S :=
  fold_left (fun acc i => Py.bind acc (body i)) (seq 0 n) (Ok s).

(** The element type of an array.  It matters only where a floating-point
    value is stored into an array of integers: the value is truncated
    towards zero. *)
Inductive dtype : Type := float64 | int64.

Definition trunc (v : R) : R :=
  if Rle_dec 0 v then IZR (Int_part v) else - IZR (Int_part (- v)).

Definition astype (dt : dtype) (v : R) : R :=
  match dt with
  | float64 => v
  | int64 => trunc v
  end.

(** An array-like argument together with its element type.  [train] and
    [linearize] never read the element type of their arguments: every
    value they compute from them is floating point. *)
Record typed : Type := mk_typed { dtype_of : dtype; values : ndarray }.

Definition float_array (a : ndarray) : typed := mk_typed float64 a.
Definition int_array (a : ndarray) : typed := mk_typed int64 a.

(** A floating-point result that may be [nan], and 2-D arrays of them. *)
Inductive fl : Type :=
| Num (v : R)
| NaN.

Record farr2 : Type :=
  mkf2 { fnrows : nat; fncols : nat; fat2 : nat -> nat -> fl }.

(** [np.sqrt]: [nan] on a negative argument. *)
Definition np_sqrt (v : R) : fl :=
  if Rlt_dec v 0 then NaN else Num (sqrt v).

Definition sqrt2 (m : arr2) : farr2 :=
  mkf2 (nrows m) (ncols m) (fun i j => np_sqrt (at2 m i j)).

End Np.

Import Np.

(** ** Slices of the distance tensor and other indexed assignments *)

Module Slice.

Definition assign_error : exn :=
  ValueError "could not broadcast input array into shape"%string.

(** A value of extent [p] fits a slice of extent [q]. *)
Definition fits (p q : nat) : bool := (p =? q)%nat || (p =? 1)%nat.

(** [m[i, ...]], with the bounds check of numpy. *)
Definition getrow (m : arr2) (i : nat) : res arr1 :=
  if (i <? nrows m)%nat then Ok (row m i)
  else Raise (IndexError "index out of bounds"%string).

(** [v[i]], with the bounds check of numpy. *)
Definition index1 (v : arr1) (i : nat) : res R :=
  if (i <? len v)%nat then Ok (at1 v i)
  else Raise (IndexError "index out of bounds"%string).

(** [t[i, :, i+1:] = A] *)
Definition assign_i_all_from (t : arr3) (i : nat) (A : arr2) : res arr3 :=
  if fits (nrows A) (dim1 t) && fits (ncols A) (dim2 t - (i + 1)) then
    Ok (mk3 (dim0 t) (dim1 t) (dim2 t)
          (fun a d j =>
             if ((a =? i) && (i + 1 <=? j))%nat
             then at2 A (bidx (nrows A) d) (bidx (ncols A) (j - (i + 1)))
             else at3 t a d j))
  else Raise assign_error.

(** [t[i, :, i+1:]] *)
Definition slice_i_all_from (t : arr3) (i : nat) : arr2 :=
  mk2 (dim1 t) (dim2 t - (i + 1)) (fun d j => at3 t i d (i + 1 + j)).

(** [t[i+1:, :, i] = B] *)
Definition assign_from_all_i (t : arr3) (i : nat) (B : arr2) : res arr3 :=
  if fits (nrows B) (dim0 t - (i + 1)) && fits (ncols B) (dim1 t) then
    Ok (mk3 (dim0 t) (dim1 t) (dim2 t)
          (fun a d j =>
             if ((i + 1 <=? a) && (j =? i))%nat
             then at2 B (bidx (nrows B) (a - (i + 1))) (bidx (ncols B) d)
             else at3 t a d j))
  else Raise assign_error.

(** [m[i][:] = v] for a row [m[i]] of [m]. *)
Definition assign_row (m : arr2) (i : nat) (v : arr1) : res arr2 :=
  if fits (len v) (ncols m) then
    Ok (mk2 (nrows m) (ncols m)
          (fun a j => if (a =? i)%nat then at1 v (bidx (len v) j) else at2 m a j))
  else Raise assign_error.

(** [m[np.diag_indices_from(m)] = 1. + nugget] *)
Definition assign_diag_one_plus (m : arr2) (nugget : ndarray) : res arr2 :=
  if negb (nrows m =? ncols m)%nat then
    Raise (ValueError "All dimensions of input must be of equal length"%string)
  else
    match nugget with
    | Arr0 g =>
        Ok (mk2 (nrows m) (ncols m)
              (fun i j => if (i =? j)%nat then 1 + g else at2 m i j))
    | Arr1 g =>
        if fits (len g) (nrows m) then
          Ok (mk2 (nrows m) (ncols m)
                (fun i j => if (i =? j)%nat then 1 + at1 g (bidx (len g) i)
                            else at2 m i j))
        else Raise assign_error
    | Arr2 g =>
        if (nrows g =? 1)%nat && fits (ncols g) (nrows m) then
          Ok (mk2 (nrows m) (ncols m)
                (fun i j => if (i =? j)%nat then 1 + at2 g O (bidx (ncols g) i)
                            else at2 m i j))
        else Raise assign_error
    end.

End Slice.

Import Slice.

(** ** The surrogate engine *)

Module Kriging.

Definition MACHINE_EPSILON : R := / 2 ^ 52.

(** The attributes of a [KrigingSurrogate] instance.  [trained] belongs to
    the base class; the seven attributes of the correlation model do not
    exist before [train] assigns them. *)
Record Engine : Type := mkEngine {
  trained : bool;
  n_dims : nat;
  n_samples : nat;
  thetas : arr1;
  nugget : ndarray;
  alpha : ndarray;
  L : ndarray;
  sigma2 : ndarray;
  X : arr2;
  Y : arr2;
  X_mean : arr1;
  X_std : arr1;
  Y_mean : arr1;
  Y_std : arr1;
  c_r : option arr2;
  U : option arr2;
  S_inv : option arr1;
  Vh : option arr2;
  mu : option arr2;
  SigmaSqr : option arr2;
  R_inv : option arr2
}.

(** [KrigingSurrogate.__init__]; [X] and [Y] start as empty arrays. *)
Definition init (nugget : ndarray) : Engine :=
  mkEngine false O O (zeros1 O) nugget
    (Arr1 (zeros1 O)) (Arr1 (zeros1 O)) (Arr1 (zeros1 O))
    (zeros2 O O) (zeros2 O O)
    (zeros1 O) (zeros1 O) (zeros1 O) (zeros1 O)
    None None None None None None None.

Definition default_nugget : ndarray := Arr0 (10 * MACHINE_EPSILON).

(** Attribute assignments. *)
Definition set_trained (b : bool) (e : Engine) : Engine :=
  mkEngine b (n_dims e) (n_samples e) (thetas e) (nugget e) (alpha e) (L e)
    (sigma2 e) (X e) (Y e) (X_mean e) (X_std e) (Y_mean e) (Y_std e)
    (c_r e) (U e) (S_inv e) (Vh e) (mu e) (SigmaSqr e) (R_inv e).

Definition set_shape (ns nd : nat) (e : Engine) : Engine :=
  mkEngine (trained e) nd ns (thetas e) (nugget e) (alpha e) (L e)
    (sigma2 e) (X e) (Y e) (X_mean e) (X_std e) (Y_mean e) (Y_std e)
    (c_r e) (U e) (S_inv e) (Vh e) (mu e) (SigmaSqr e) (R_inv e).

Definition set_thetas (t : arr1) (e : Engine) : Engine :=
  mkEngine (trained e) (n_dims e) (n_samples e) t (nugget e) (alpha e) (L e)
    (sigma2 e) (X e) (Y e) (X_mean e) (X_std e) (Y_mean e) (Y_std e)
    (c_r e) (U e) (S_inv e) (Vh e) (mu e) (SigmaSqr e) (R_inv e).

Definition set_X (m : arr2) (e : Engine) : Engine :=
  mkEngine (trained e) (n_dims e) (n_samples e) (thetas e) (nugget e)
    (alpha e) (L e) (sigma2 e) m (Y e) (X_mean e) (X_std e) (Y_mean e)
    (Y_std e) (c_r e) (U e) (S_inv e) (Vh e) (mu e) (SigmaSqr e) (R_inv e).

Definition set_Y (m : arr2) (e : Engine) : Engine :=
  mkEngine (trained e) (n_dims e) (n_samples e) (thetas e) (nugget e)
    (alpha e) (L e) (sigma2 e) (X e) m (X_mean e) (X_std e) (Y_mean e)
    (Y_std e) (c_r e) (U e) (S_inv e) (Vh e) (mu e) (SigmaSqr e) (R_inv e).

Definition set_X_stats (m s : arr1) (e : Engine) : Engine :=
  mkEngine (trained e) (n_dims e) (n_samples e) (thetas e) (nugget e)
    (alpha e) (L e) (sigma2 e) (X e) (Y e) m s (Y_mean e)
    (Y_std e) (c_r e) (U e) (S_inv e) (Vh e) (mu e) (SigmaSqr e) (R_inv e).

Definition set_Y_stats (m s : arr1) (e : Engine) : Engine :=
  mkEngine (trained e) (n_dims e) (n_samples e) (thetas e) (nugget e)
    (alpha e) (L e) (sigma2 e) (X e) (Y e) (X_mean e) (X_std e) m
    s (c_r e) (U e) (S_inv e) (Vh e) (mu e) (SigmaSqr e) (R_inv e).

Definition set_c_r (v : arr2) (e : Engine) : Engine :=
  mkEngine (trained e) (n_dims e) (n_samples e) (thetas e) (nugget e)
    (alpha e) (L e) (sigma2 e) (X e) (Y e) (X_mean e) (X_std e) (Y_mean e)
    (Y_std e) (Some v) (U e) (S_inv e) (Vh e) (mu e) (SigmaSqr e) (R_inv e).

Definition set_U (v : arr2) (e : Engine) : Engine :=
  mkEngine (trained e) (n_dims e) (n_samples e) (thetas e) (nugget e)
    (alpha e) (L e) (sigma2 e) (X e) (Y e) (X_mean e) (X_std e) (Y_mean e)
    (Y_std e) (c_r e) (Some v) (S_inv e) (Vh e) (mu e) (SigmaSqr e) (R_inv e).

Definition set_S_inv (v : arr1) (e : Engine) : Engine :=
  mkEngine (trained e) (n_dims e) (n_samples e) (thetas e) (nugget e)
    (alpha e) (L e) (sigma2 e) (X e) (Y e) (X_mean e) (X_std e) (Y_mean e)
    (Y_std e) (c_r e) (U e) (Some v) (Vh e) (mu e) (SigmaSqr e) (R_inv e).

Definition set_Vh (v : arr2) (e : Engine) : Engine :=
  mkEngine (trained e) (n_dims e) (n_samples e) (thetas e) (nugget e)
    (alpha e) (L e) (sigma2 e) (X e) (Y e) (X_mean e) (X_std e) (Y_mean e)
    (Y_std e) (c_r e) (U e) (S_inv e) (Some v) (mu e) (SigmaSqr e) (R_inv e).

Definition set_mu (v : arr2) (e : Engine) : Engine :=
  mkEngine (trained e) (n_dims e) (n_samples e) (thetas e) (nugget e)
    (alpha e) (L e) (sigma2 e) (X e) (Y e) (X_mean e) (X_std e) (Y_mean e)
    (Y_std e) (c_r e) (U e) (S_inv e) (Vh e) (Some v) (SigmaSqr e) (R_inv e).

Definition set_SigmaSqr (v : arr2) (e : Engine) : Engine :=
  mkEngine (trained e) (n_dims e) (n_samples e) (thetas e) (nugget e)
    (alpha e) (L e) (sigma2 e) (X e) (Y e) (X_mean e) (X_std e) (Y_mean e)
    (Y_std e) (c_r e) (U e) (S_inv e) (Vh e) (mu e) (Some v) (R_inv e).

Definition set_R_inv (v : arr2) (e : Engine) : Engine :=
  mkEngine (trained e) (n_dims e) (n_samples e) (thetas e) (nugget e)
    (alpha e) (L e) (sigma2 e) (X e) (Y e) (X_mean e) (X_std e) (Y_mean e)
    (Y_std e) (c_r e) (U e) (S_inv e) (Vh e) (mu e) (SigmaSqr e) (Some v).

(** Reading an attribute that may not exist yet. *)
Definition attr {A : Type} (name : string) (a : option A) : res A :=
  match a with
  | Some v => Ok v
  | None => Raise (AttributeError name)
  end.

(** The [params] dictionary of [_calculate_reduced_likelihood_params]. *)
Record Params : Type := mkParams {
  p_mu : arr2;
  p_SigmaSqr : arr2;
  p_S_inv : arr1;
  p_U : arr2;
  p_Vh : arr2;
  p_c_r : arr2;
  p_R_inv : arr2
}.

(** The result object of [scipy.optimize.minimize]. *)
Record OptimizeResult : Type := mkOptimizeResult {
  success : bool;
  opt_x : arr1;
  message : string
}.

(** What [train] writes to standard output and which library routines it
    calls. *)
Inductive printed : Type :=
| PStr (s : string)
| PArr1 (v : arr1)
| PArr2 (m : arr2).

Inductive event : Type :=
| CallMinimize (x0 : arr2) (bounds : list (R * R))
| Print (v : printed).

(** The state a method runs in: the instance and the events so far.  An
    exception leaves the assignments made before it in place. *)
Record world : Type := mkWorld { self : Engine; events : list event }.

Definition M (A : Type) : Type := world -> res A * world.

Definition ret {A : Type} (a : A) : M A := fun w => (Ok a, w).

Definition mbind {A B : Type} (m : M A) (k : A -> M B) : M B :=
  fun w =>
    match m w with
    | (Ok a, w') => k a w'
    | (Raise e, w') => (Raise e, w')
    end.

Definition lift {A : Type} (r : res A) : M A := fun w => (r, w).
Definition raise {A : Type} (e : exn) : M A := fun w => (Raise e, w).
Definition get_self : M Engine := fun w => (Ok (self w), w).
Definition modify (f : Engine -> Engine) : M unit :=
  fun w => (Ok tt, mkWorld (f (self w)) (events w)).
Definition emit (ev : event) : M unit :=
  fun w => (Ok tt, mkWorld (self w) (events w ++ [ev])).

Notation "x <~ m ;; k" := (mbind m (fun x => k))
  (at level 61, m at next level, right associativity).
Notation "m >>> k" := (mbind m (fun _ => k))
  (at level 61, right associativity).

(** Modelled from the spec: the base class [SurrogateModel] is not part of
    the sources; its [train] records that training was requested. *)
Definition SurrogateModel_train (x y : ndarray) : M unit :=
  modify (set_trained true).

(** Modelled from the spec: [SurrogateModel.predict], absent from the
    sources, raises when [train] was never called. *)
Definition SurrogateModel_predict (e : Engine) (x : ndarray) : res unit :=
  if trained e then Ok tt
  else Raise (RuntimeError
                "KrigingSurrogate has not been trained, so no prediction can be made."%string).

(** [scipy.linalg.svd]: the factors [U], [S], [Vh] of a matrix. *)
Definition svd_t : Type := arr2 -> arr2 * arr1 * arr2.

(** [scipy.optimize.minimize(fun, x0, method=..., options={'eps': ...},
    bounds=...)] *)
Definition minimize_t : Type :=
  (arr1 -> res arr2) -> arr2 -> string -> R -> list (R * R) ->
  res OptimizeResult.

Section Methods.

Variable svd : svd_t.
Variable minimize : minimize_t.

(** One turn of the loop that fills the distance tensor. *)
Definition distances_step (X : arr2) (i : nat) (distances : arr3) : res arr3 :=
  Xi <- getrow X i ;;
  diff <- broadcast2 Rminus (as_row Xi) (rows_from X (i + 1)) ;;
  distances <- assign_i_all_from distances i (transpose (map2 Rabs diff)) ;;
  assign_from_all_i distances i (transpose (slice_i_all_from distances i)).

(** The block of [_calculate_reduced_likelihood_params] headed
    "Correlation Matrix". *)
Definition correlation_matrix (e : Engine) (thetas : arr1) : res arr2 :=
  distances <- for_range (n_samples e) (distances_step (X e))
                 (zeros3 (n_samples e) (n_dims e) (n_samples e)) ;;
  s <- dot_13 thetas (map3 Rsqr distances) ;;
  assign_diag_one_plus (map2 (fun v => exp (- v)) s) (nugget e).

(** [KrigingSurrogate._calculate_reduced_likelihood_params] *)
Definition _calculate_reduced_likelihood_params
  (e : Engine) (thetas_arg : option arr1) : res (arr2 * Params) :=
  let thetas := match thetas_arg with None => thetas e | Some t => t end in
  let X := X e in
  let Y := Y e in
  R <- correlation_matrix e thetas ;;
  let '(U, S_, Vh) := svd R in
  S0 <- index1 S_ 0 ;;
  let h := 1e-8 * S0 in
  let inv_factors := map1 (fun s => s / (s ^ 2 + h ^ 2)) S_ in
  ein <- einsum_i_ij inv_factors (transpose U) ;;
  R_inv <- dot_22 (transpose Vh) ein ;;
  let logdet :=
    2.0 * rsum (len inv_factors) (fun k => ln (Rabs (at1 inv_factors k))) in
  let one := ones2 (n_samples e) 1 in
  RY <- dot_22 R_inv Y ;;
  num <- dot_22 (transpose one) RY ;;
  Rone <- dot_22 R_inv one ;;
  den <- dot_22 (transpose one) Rone ;;
  mu <- broadcast2 Rdiv num den ;;
  onemu <- broadcast2 Rmult one mu ;;
  resid <- broadcast2 Rminus Y onemu ;;
  c_r <- dot_22 R_inv resid ;;
  onemu' <- broadcast2 Rmult one mu ;;
  resid' <- broadcast2 Rminus Y onemu' ;;
  rc <- dot_22 (transpose resid') c_r ;;
  let SigmaSqr := map2 (fun v => v / INR (n_samples e)) rc in
  let reduced_likelihood :=
    map2 (fun v => 1.0 * (- (INR (n_samples e) / 2.0) * ln v - 0.5 * logdet))
      SigmaSqr in
  Ok (reduced_likelihood, mkParams mu SigmaSqr inv_factors U Vh c_r R_inv).

(** The callback [_calcll] of [train], closed over the instance. *)
Definition _calcll (e : Engine) (thetas : arr1) : res arr2 :=
  lp <- _calculate_reduced_likelihood_params e (Some (map1 (Rpower 10) thetas)) ;;
  Ok (map2 Ropp (fst lp)).

Definition call_minimize (f : arr1 -> res arr2) (x0 : arr2)
  (bounds : list (R * R)) : M OptimizeResult :=
  emit (CallMinimize x0 bounds) >>>
  lift (minimize f x0 "slsqp"%string 1e-3 bounds).

Definition print (v : printed) : M unit := emit (Print v).

(** [exit()] raises [SystemExit]. *)
Definition exit : M unit := raise SystemExit.

(** [KrigingSurrogate.train] *)
Definition train (x y : ndarray) (normalize : bool) : M unit :=
  SurrogateModel_train x y >>>
  let x := atleast_2d x in
  let y := atleast_2d y in
  modify (set_shape (nrows x) (ncols x)) >>>
  e <~ get_self ;;
  if (n_samples e <=? 1)%nat then
    raise (ValueError "KrigingSurrogate require at least 2 training points."%string)
  else
    let X_mean := mean0 x in
    let X_std := std0 x in
    let Y_mean := mean0 y in
    let Y_std := std0 y in
    let X_std := clamp_zero X_std in
    let Y_std := clamp_zero Y_std in
    (if normalize then
       X <~ lift (d <- broadcast2 Rminus x (as_row X_mean) ;;
                  broadcast2 Rdiv d (as_row X_std)) ;;
       Y <~ lift (d <- broadcast2 Rminus y (as_row Y_mean) ;;
                  broadcast2 Rdiv d (as_row Y_std)) ;;
       modify (set_X X) >>>
       modify (set_Y Y)
     else
       modify (set_X x) >>>
       modify (set_Y y)) >>>
    modify (set_X_stats X_mean X_std) >>>
    modify (set_Y_stats Y_mean Y_std) >>>
    e <~ get_self ;;
    let bounds := repeat (-3.0, 2.0) (n_dims e) in
    x0 <~ lift (broadcast2 Rplus
                  (map2 (fun v => -3.0 * v) (ones2 (n_dims e) 1))
                  (map2 (fun v => 0.5 * v)
                     (map2 (fun v => 5.0 * v) (ones2 (n_dims e) 1)))) ;;
    optResult <~ call_minimize (_calcll e) x0 bounds ;;
    if negb (success optResult) then
      raise (ValueError
               ("Kriging Hyper-parameter optimization failed: "
                  ++ message optResult)%string)
    else
      modify (set_thetas (map1 (Rpower 10) (opt_x optResult))) >>>
      e <~ get_self ;;
      lp <~ lift (_calculate_reduced_likelihood_params e None) ;;
      let params := snd lp in
      modify (set_c_r (p_c_r params)) >>>
      modify (set_U (p_U params)) >>>
      modify (set_S_inv (p_S_inv params)) >>>
      modify (set_Vh (p_Vh params)) >>>
      modify (set_mu (p_mu params)) >>>
      modify (set_SigmaSqr (p_SigmaSqr params)) >>>
      modify (set_R_inv (p_R_inv params)) >>>
      print (PStr "kriging test"%string) >>>
      e <~ get_self ;;
      print (PArr1 (thetas e)) >>>
      v <~ lift (attr "R_inv"%string (R_inv e)) ;;
      print (PArr2 v) >>>
      v <~ lift (attr "SigmaSqr"%string (SigmaSqr e)) ;;
      print (PArr2 v) >>>
      v <~ lift (attr "mu"%string (mu e)) ;;
      print (PArr2 v) >>>
      exit.

(** What [predict] returns: the mean alone, or the pair of mean and RMSE. *)
Inductive prediction : Type :=
| PMean (y : arr2)
| PMeanRmse (y : arr2) (rmse : farr2).

(** The body of the loop of [predict] over [zip(r, x_n)]:
    [r_i[:] = np.exp(-thetas.dot(np.square((x_i - X).T)))].  The array [r]
    has the element type [dt] of the query, so the assignment casts the
    correlations to it. *)
Definition predict_step (e : Engine) (dt : dtype) (x_n : arr2) (i : nat)
  (r : arr2) : res arr2 :=
  diff <- broadcast2 Rminus (as_row (row x_n i)) (X e) ;;
  s <- dot_12 (thetas e) (map2 Rsqr (transpose diff)) ;;
  assign_row r i (map1 (astype dt) (map1 (fun v => exp (- v)) s)).

(** [KrigingSurrogate.predict] *)
Definition predict (e : Engine) (x : typed) (eval_rmse normalize : bool)
  : res prediction :=
  _ <- SurrogateModel_predict e (values x) ;;
  let dt := dtype_of x in
  let x := atleast_2d (values x) in
  let n_eval := nrows x in
  x_n <- (if normalize then
            d <- broadcast2 Rminus x (as_row (X_mean e)) ;;
            broadcast2 Rdiv d (as_row (X_std e))
          else Ok x) ;;
  let r := zeros2 n_eval (n_samples e) in
  r <- for_range (Nat.min (nrows r) (nrows x_n)) (predict_step e dt x_n) r ;;
  let r := if (1 <? ncols r)%nat then transpose r else r in
  mu_ <- attr "mu"%string (mu e) ;;
  c_r_ <- attr "c_r"%string (c_r e) ;;
  rc <- dot_22 (transpose r) c_r_ ;;
  y <- broadcast2 Rplus mu_ rc ;;
  if eval_rmse then
    let one := ones2 (n_samples e) 1 in
    SigmaSqr_ <- attr "SigmaSqr"%string (SigmaSqr e) ;;
    R_inv_ <- attr "R_inv"%string (R_inv e) ;;
    Rr <- dot_22 R_inv_ r ;;
    a <- dot_22 (transpose r) Rr ;;
    Rr' <- dot_22 R_inv_ r ;;
    b <- dot_22 (transpose one) Rr' ;;
    Rone <- dot_22 R_inv_ one ;;
    c <- dot_22 (transpose one) Rone ;;
    q <- broadcast2 Rdiv (map2 (fun v => (1.0 - v) ^ 2) b) c ;;
    s <- broadcast2 Rplus (map2 (fun v => 1.0 - v) a) q ;;
    mse <- broadcast2 Rmult SigmaSqr_ s ;;
    let mse := clamp_negative mse in
    Ok (PMeanRmse y (sqrt2 mse))
  else
    Ok (PMean y).

(** The first three statements of [linearize]: the normalised query, the
    correlation vector and its gradient. *)
Definition linearize_x_n (e : Engine) (x : arr1) : res arr1 :=
  d <- broadcast1 Rminus x (X_mean e) ;;
  broadcast1 Rdiv d (X_std e).

Definition linearize_r (e : Engine) (x_n : arr1) : res arr1 :=
  diff <- broadcast2 Rminus (as_row x_n) (X e) ;;
  s <- dot_12 (thetas e) (map2 Rsqr (transpose diff)) ;;
  Ok (map1 (fun v => exp (- v)) s).

Definition linearize_gradr (e : Engine) (x_n r : arr1) : res arr2 :=
  diff <- broadcast2 Rminus (as_row x_n) (X e) ;;
  ein <- einsum_i_ij (thetas e) (transpose diff) ;;
  broadcast2 Rmult (as_row (map1 (fun v => v * -2) r)) ein.

(** [KrigingSurrogate.linearize] *)
Definition linearize (e : Engine) (x : arr1) : res arr2 :=
  x_n <- linearize_x_n e x ;;
  r <- linearize_r e x_n ;;
  gradr <- linearize_gradr e x_n r ;;
  g <- dot_2n gradr (alpha e) ;;
  einsum_i_j_ij (Y_std e) (map1 (fun s => 1 / s) (X_std e)) (nd_T g).

(** Indexing the result of [predict] with [0]: the first row of an array,
    the first component of a pair. *)
Definition item0 (p : prediction) : res ndarray :=
  match p with
  | PMean y => v <- getrow y 0 ;; Ok (Arr1 v)
  | PMeanRmse y _ => Ok (Arr2 y)
  end.

(** [FloatKrigingSurrogate.predict] *)
Definition FloatKrigingSurrogate_predict (e : Engine) (x : typed)
  : res ndarray :=
  dist <- predict e x false true ;;
  item0 dist.

End Methods.

End Kriging.

Import Kriging.

(** ** Notions the statements are phrased in *)

Module Spec.

(** The Gaussian correlation of two points under the length scales
    [thetas]: [exp(-sum_d thetas[d] * (a[d] - b[d])^2)]. *)
Definition gauss_corr (thetas a b : arr1) : R :=
  exp (- rsum (len thetas) (fun d => at1 thetas d * (at1 a d - at1 b d) ^ 2)).

(** A nugget is a scalar or one value per sample. *)
Definition nugget_fits (g : ndarray) (n : nat) : bool :=
  match g with
  | Arr0 _ => true
  | Arr1 v => fits (len v) n
  | Arr2 m => (nrows m =? 1)%nat && fits (ncols m) n
  end.

(** The nugget of sample [i]. *)
Definition nugget_entry (g : ndarray) (i : nat) : R :=
  match g with
  | Arr0 x => x
  | Arr1 v => at1 v (bidx (len v) i)
  | Arr2 m => at2 m O (bidx (ncols m) i)
  end.

(** [diag(v)] *)
Definition diag (v : arr1) : arr2 :=
  mk2 (len v) (len v) (fun i j => if (i =? j)%nat then at1 v i else 0).

(** The instance holds a training set of [n_samples] points of dimension
    [n_dims]. *)
Definition holds_training_set (e : Engine) : Prop :=
  nrows (X e) = n_samples e /\ ncols (X e) = n_dims e.

(** The state of the distance tensor after [k] turns of the loop. *)
Definition distances_upto (X : arr2) (k : nat) (t : arr3) : Prop :=
  dim0 t = nrows X /\ dim1 t = ncols X /\ dim2 t = nrows X /\
  forall a d j, (a < nrows X)%nat -> (d < ncols X)%nat -> (j < nrows X)%nat ->
    at3 t a d j =
      if ((a <? j) && (a <? k))%nat then Rabs (at2 X a d - at2 X j d)
      else if ((j <? a) && (j <? k))%nat then Rabs (at2 X j d - at2 X a d)
      else 0.

(** The attributes [train] leaves behind have the shapes of a fitted model
    with [n_out] responses per sample; [alpha] is still the empty array of
    [__init__]. *)
Definition shape (o : option arr2) : option (nat * nat) :=
  match o with
  | Some m => Some (nrows m, ncols m)
  | None => None
  end.

Definition trained_engine (e : Engine) (n_out : nat) : Prop :=
  trained e = true /\
  (2 <= n_samples e)%nat /\
  holds_training_set e /\
  (nrows (Y e) = n_samples e /\ ncols (Y e) = n_out) /\
  len (thetas e) = n_dims e /\
  (len (X_mean e) = n_dims e /\ len (X_std e) = n_dims e) /\
  (len (Y_mean e) = n_out /\ len (Y_std e) = n_out) /\
  shape (c_r e) = Some (n_samples e, n_out) /\
  shape (mu e) = Some (1%nat, n_out) /\
  shape (SigmaSqr e) = Some (n_out, n_out) /\
  shape (R_inv e) = Some (n_samples e, n_samples e) /\
  alpha e = Arr1 (zeros1 O).

(** A fitted instance with two samples of one input and one response. *)
Definition two_point_engine : Engine :=
  mkEngine true 1 2 (of_list [1]) default_nugget
    (Arr1 (zeros1 O)) (Arr1 (zeros1 O)) (Arr1 (zeros1 O))
    (of_rows [[-1]; [1]]) (of_rows [[-1]; [1]])
    (of_list [0.5]) (of_list [0.5]) (of_list [0.5]) (of_list [0.5])
    (Some (of_rows [[-1]; [1]]))
    (Some (of_rows [[1; 0]; [0; 1]]))
    (Some (of_list [1; 1]))
    (Some (of_rows [[1; 0]; [0; 1]]))
    (Some (of_rows [[0]]))
    (Some (of_rows [[1]]))
    (Some (of_rows [[1; 0]; [0; 1]])).

(** The factors a singular-value decomposition of an [n] by [n] matrix
    returns are [n] by [n], with [n] singular values. *)
Definition svd_shapes (svd : svd_t) (n : nat) : Prop :=
  forall Rm, nrows Rm = n -> ncols Rm = n ->
    let '(U, Sv, Vh) := svd Rm in
    (nrows U = n /\ ncols U = n) /\ len Sv = n /\ (nrows Vh = n /\ ncols Vh = n).

(** The factorisation [R = R . diag(1) . I]: factors of the right shapes
    for any square [R]. *)
Definition unit_factors : svd_t :=
  fun Rm => (Rm, mk1 (nrows Rm) (fun _ => 1),
             mk2 (nrows Rm) (nrows Rm) (fun i j => if (i =? j)%nat then 1 else 0)).

(** The stored training data when [normalize] is true. *)
Definition normalized (x : arr2) : arr2 :=
  elementwise2 Rdiv (nrows x) (ncols x)
    (elementwise2 Rminus (nrows x) (ncols x) x (as_row (mean0 x)))
    (as_row (clamp_zero (std0 x))).

(** The instance when [train] hands over to the optimizer. *)
Definition prepared (x y : arr2) (normalize : bool) (e : Engine) : Engine :=
  let e := set_shape (nrows x) (ncols x) (set_trained true e) in
  let e := if normalize then set_Y (normalized y) (set_X (normalized x) e)
           else set_Y y (set_X x e) in
  set_Y_stats (mean0 y) (clamp_zero (std0 y))
    (set_X_stats (mean0 x) (clamp_zero (std0 x)) e).

(** The initial guess [x0] of [train]. *)
Definition start_point (n_dims : nat) : arr2 :=
  elementwise2 Rplus n_dims 1
    (map2 (fun v => -3.0 * v) (ones2 n_dims 1))
    (map2 (fun v => 0.5 * v) (map2 (fun v => 5.0 * v) (ones2 n_dims 1))).

(** The seven assignments that follow the final evaluation. *)
Definition fitted (p : Params) (e : Engine) : Engine :=
  set_R_inv (p_R_inv p) (set_SigmaSqr (p_SigmaSqr p) (set_mu (p_mu p)
    (set_Vh (p_Vh p) (set_S_inv (p_S_inv p) (set_U (p_U p)
      (set_c_r (p_c_r p) e)))))).

(** The five [print] statements at the end of [train]. *)
Definition debug_output (e : Engine) (p : Params) : list event :=
  [Print (PStr "kriging test"%string); Print (PArr1 (thetas e));
   Print (PArr2 (p_R_inv p)); Print (PArr2 (p_SigmaSqr p));
   Print (PArr2 (p_mu p))].

(** An optimizer that reports success at its initial guess, and the world
    of a freshly constructed instance. *)
Definition stay_at_start : minimize_t :=
  fun _ x0 _ _ _ =>
    Ok (mkOptimizeResult true (mk1 (nrows x0) (fun i => at2 x0 i O))
          "Optimization terminated successfully."%string).

Definition fresh_world : world := mkWorld (init default_nugget) [].

(** The query points [predict] measures against the training set. *)
Definition query_points (e : Engine) (x : arr2) (normalize : bool) : arr2 :=
  if normalize then
    elementwise2 Rdiv (nrows x) (ncols x)
      (elementwise2 Rminus (nrows x) (ncols x) x (as_row (X_mean e)))
      (as_row (X_std e))
  else x.

(** The correlation rows after [j] turns of the loop of [predict]. *)
Definition predict_upto (e : Engine) (dt : dtype) (x_n : arr2) (j : nat)
  (r : arr2) : Prop :=
  nrows r = nrows x_n /\ ncols r = n_samples e /\
  forall k i, (k < nrows x_n)%nat -> (i < n_samples e)%nat ->
    at2 r k i =
      if (k <? j)%nat
      then astype dt (gauss_corr (thetas e) (row x_n k) (row (X e) i))
      else 0.

End Spec.

Import Spec.

(** ** Further instances *)

Module Instances.

(** An optimizer that reports failure without moving. *)
Definition fail_at_start : minimize_t :=
  fun _ x0 _ _ _ =>
    Ok (mkOptimizeResult false (mk1 (nrows x0) (fun i => at2 x0 i O))
          "Iteration limit exceeded"%string).

(** An instance that holds the same training point twice. *)
Definition duplicate_engine : Engine :=
  mkEngine true 1 2 (of_list [1]) default_nugget
    (Arr1 (zeros1 O)) (Arr1 (zeros1 O)) (Arr1 (zeros1 O))
    (of_rows [[3]; [3]]) (of_rows [[-1]; [1]])
    (of_list [0]) (of_list [1]) (of_list [0]) (of_list [1])
    None None None None None None None.

(** Identity factors with unit singular values. *)
Definition identity_factors : svd_t :=
  fun Rm =>
    (mk2 (nrows Rm) (nrows Rm) (fun i j => if (i =? j)%nat then 1 else 0),
     mk1 (nrows Rm) (fun _ => 1),
     mk2 (nrows Rm) (nrows Rm) (fun i j => if (i =? j)%nat then 1 else 0)).


(** A fitted instance with two inputs per sample. *)
Definition plane_engine : Engine :=
  mkEngine true 2 2 (of_list [1; 1]) default_nugget
    (Arr1 (zeros1 O)) (Arr1 (zeros1 O)) (Arr1 (zeros1 O))
    (of_rows [[-1; -1]; [1; 1]]) (of_rows [[-1]; [1]])
    (of_list [0.5; 0.5]) (of_list [0.5; 0.5]) (of_list [0.5]) (of_list [0.5])
    (Some (of_rows [[-1]; [1]]))
    (Some (of_rows [[1; 0]; [0; 1]]))
    (Some (of_list [1; 1]))
    (Some (of_rows [[1; 0]; [0; 1]]))
    (Some (of_rows [[0]]))
    (Some (of_rows [[1]]))
    (Some (of_rows [[1; 0]; [0; 1]])).


(** An instance with three nugget values for two samples. *)
Definition long_nugget_engine : Engine :=
  mkEngine true 1 2 (of_list [1]) (Arr1 (of_list [0.1; 0.1; 0.1]))
    (Arr1 (zeros1 O)) (Arr1 (zeros1 O)) (Arr1 (zeros1 O))
    (of_rows [[-1]; [1]]) (of_rows [[-1]; [1]])
    (of_list [0.5]) (of_list [0.5]) (of_list [0.5]) (of_list [0.5])
    None None None None None None None.

(** [x0.flatten()], the point at which scipy first evaluates the objective. *)
Definition flatten (m : arr2) : arr1 :=
  mk1 (nrows m * ncols m)
    (fun i => at2 m (i / ncols m) (i mod ncols m)).

(** An optimizer evaluates its objective at the initial guess and lets an
    exception raised there through. *)
Definition evaluates_objective (minimize : minimize_t) : Prop :=
  forall f x0 method eps bounds ex,
    f (flatten x0) = Raise ex ->
    minimize f x0 method eps bounds = Raise ex.

(** An optimizer that evaluates its objective once and stops there. *)
Definition probing_optimizer : minimize_t :=
  fun f x0 _ _ _ =>
    match f (flatten x0) with
    | Ok _ =>
        Ok (mkOptimizeResult true (flatten x0)
              "Optimization terminated successfully."%string)
    | Raise ex => Raise ex
    end.

End Instances.

Import Instances.

(** * Properties *)

(** ** Sums, loops and broadcasting *)

Lemma rsum_ext (n : nat) (f g : nat -> R) :
  (forall k, (k < n)%nat -> f k = g k) -> rsum n f = rsum n g.
Proof.
  induction n as [|n IH]; intros H; simpl.
  - reflexivity.
  - rewrite IH by (intros k Hk; apply H; lia).
    rewrite (H n) by lia. reflexivity.
Qed.

Lemma for_range_S {S : Type} (n : nat) (body : nat -> S -> res S) (s : S) :
  for_range (Datatypes.S n) body s = Py.bind (for_range n body s) (body n).
Proof.
  unfold for_range. rewrite seq_S, fold_left_app. reflexivity.
Qed.

(** A loop whose body keeps an indexed invariant ends normally in a state
    that satisfies it. *)
Lemma for_range_invariant {S : Type} (I : nat -> S -> Prop)
  (n : nat) (body : nat -> S -> res S) (s : S) :
  I O s ->
  (forall k t, (k < n)%nat -> I k t ->
               exists t', body k t = Ok t' /\ I (Datatypes.S k) t') ->
  exists t, for_range n body s = Ok t /\ I n t.
Proof.
  intros H0 Hstep.
  assert (forall k, (k <= n)%nat -> exists t, for_range k body s = Ok t /\ I k t)
    as Hall.
  { induction k as [|k IH]; intros Hk.
    - exists s. split; [reflexivity | assumption].
    - destruct IH as [t [Ht HI]]; [lia|].
      destruct (Hstep k t) as [t' [Hb HI']]; [lia | assumption |].
      exists t'. rewrite for_range_S, Ht. simpl. auto. }
  apply Hall. lia.
Qed.

Lemma bdim_same (p : nat) : bdim p p = Some p.
Proof. unfold bdim. rewrite Nat.eqb_refl. reflexivity. Qed.

Lemma bdim_one_l (q : nat) : bdim 1 q = Some q.
Proof.
  unfold bdim. destruct (Nat.eqb_spec 1 q) as [E|E]; [subst|]; reflexivity.
Qed.

Lemma bdim_one_r (p : nat) : bdim p 1 = Some p.
Proof.
  unfold bdim. destruct (Nat.eqb_spec p 1) as [E|E]; [reflexivity|].
  simpl. reflexivity.
Qed.

Lemma bidx_in (p i : nat) : (i < p)%nat -> bidx p i = i.
Proof.
  unfold bidx. intros H. destruct (Nat.eqb_spec p 1); [lia | reflexivity].
Qed.

Lemma bidx_one (i : nat) : bidx 1 i = O.
Proof. reflexivity. Qed.

Lemma fits_same (p : nat) : fits p p = true.
Proof. unfold fits. rewrite Nat.eqb_refl. reflexivity. Qed.

(** ** The distance tensor and the correlation matrix *)

Lemma distances_step_ok (X : arr2) (i : nat) (t : arr3) :
  (i < nrows X)%nat ->
  dim0 t = nrows X -> dim1 t = ncols X -> dim2 t = nrows X ->
  exists t',
    distances_step X i t = Ok t' /\
    dim0 t' = nrows X /\ dim1 t' = ncols X /\ dim2 t' = nrows X /\
    forall a d j, (a < nrows X)%nat -> (d < ncols X)%nat -> (j < nrows X)%nat ->
      at3 t' a d j =
        if ((a =? i) && (i + 1 <=? j))%nat then Rabs (at2 X i d - at2 X j d)
        else if ((i + 1 <=? a) && (j =? i))%nat then Rabs (at2 X i d - at2 X a d)
        else at3 t a d j.
Proof.
  intros Hi H0 H1 H2.
  unfold distances_step, getrow.
  apply Nat.ltb_lt in Hi as Hi'. rewrite Hi'. cbn [Py.bind].
  unfold broadcast2. cbn [nrows ncols as_row rows_from row len].
  rewrite bdim_one_l, bdim_same. cbn [Py.bind]. unfold elementwise2.
  cbn [nrows ncols as_row rows_from row len].
  unfold assign_i_all_from. cbn [nrows ncols transpose map2].
  rewrite ?H0, ?H1, ?H2, !fits_same. cbn [andb Py.bind].
  unfold assign_from_all_i.
  cbn [nrows ncols transpose slice_i_all_from dim0 dim1 dim2].
  rewrite ?H0, ?H1, ?H2, !fits_same. cbn [andb].
  eexists. split; [reflexivity|]. cbn [dim0 dim1 dim2 at3].
  repeat split; auto.
  intros a d j Ha Hd Hj.
  cbn [at2 at1 transpose map2 slice_i_all_from as_row row rows_from at3].
  rewrite !(bidx_in _ d) by assumption.
  destruct (Nat.leb_spec (i + 1) a) as [La|La];
    destruct (Nat.eqb_spec j i) as [Ej|Ej];
    destruct (Nat.eqb_spec a i) as [Ea|Ea];
    destruct (Nat.leb_spec (i + 1) j) as [Lj|Lj];
    cbn [andb]; try lia; try reflexivity.
  - rewrite Nat.eqb_refl.
    rewrite !(bidx_in _ (a - (i + 1))) by lia.
    replace (i + 1 + (a - (i + 1)))%nat with a by lia.
    destruct (Nat.leb_spec (i + 1) a); [|lia]. cbn [andb].
    rewrite !(bidx_in _ (a - (i + 1))) by lia.
    replace (i + 1 + (a - (i + 1)))%nat with a by lia. reflexivity.
  - rewrite !(bidx_in _ (j - (i + 1))) by lia.
    replace (i + 1 + (j - (i + 1)))%nat with j by lia. reflexivity.
Qed.

Lemma distances_loop (X : arr2) :
  exists t,
    for_range (nrows X) (distances_step X)
      (zeros3 (nrows X) (ncols X) (nrows X)) = Ok t /\
    distances_upto X (nrows X) t.
Proof.
  apply for_range_invariant.
  - unfold distances_upto. cbn [zeros3 dim0 dim1 dim2 at3].
    repeat split; auto.
    intros a d j _ _ _.
    replace (a <? 0)%nat with false by (symmetry; apply Nat.ltb_ge; lia).
    replace (j <? 0)%nat with false by (symmetry; apply Nat.ltb_ge; lia).
    rewrite !andb_false_r. reflexivity.
  - intros k t Hk (H0 & H1 & H2 & Hat).
    destruct (distances_step_ok X k t Hk H0 H1 H2)
      as (t' & Heq & H0' & H1' & H2' & Hat').
    exists t'. split; [assumption|].
    unfold distances_upto. repeat split; auto.
    intros a d j Ha Hd Hj.
    rewrite Hat' by assumption. rewrite Hat by assumption.
    destruct (Nat.eqb_spec a k), (Nat.leb_spec (k + 1) j),
      (Nat.leb_spec (k + 1) a), (Nat.eqb_spec j k),
      (Nat.ltb_spec a j), (Nat.ltb_spec j a),
      (Nat.ltb_spec a k), (Nat.ltb_spec j k),
      (Nat.ltb_spec a (S k)), (Nat.ltb_spec j (S k));
      cbn [andb]; try lia; try reflexivity; subst; reflexivity.
Qed.

Lemma assign_diag_ok (m : arr2) (g : ndarray) :
  nrows m = ncols m -> nugget_fits g (nrows m) = true ->
  exists m', assign_diag_one_plus m g = Ok m' /\
    nrows m' = nrows m /\ ncols m' = ncols m /\
    forall i j, at2 m' i j =
      if (i =? j)%nat then 1 + nugget_entry g i else at2 m i j.
Proof.
  intros Hsq Hfit. unfold assign_diag_one_plus.
  rewrite <- Hsq, Nat.eqb_refl. cbn [negb].
  destruct g as [x|v|gm]; cbn [nugget_fits nugget_entry] in *.
  - eexists. split; [reflexivity|]. cbn. auto.
  - rewrite Hfit. eexists. split; [reflexivity|]. cbn. auto.
  - rewrite Hfit. eexists. split; [reflexivity|]. cbn. auto.
Qed.

Lemma sq_abs_sub (u v : R) : Rsqr (Rabs (u - v)) = (u - v) ^ 2.
Proof. rewrite <- Rsqr_abs. unfold Rsqr. ring. Qed.

Lemma correlation_matrix_ok (e : Engine) (th : arr1) :
  holds_training_set e ->
  len th = n_dims e ->
  nugget_fits (nugget e) (n_samples e) = true ->
  exists Rm,
    correlation_matrix e th = Ok Rm /\
    nrows Rm = n_samples e /\ ncols Rm = n_samples e /\
    (forall i j, (i < n_samples e)%nat -> (j < n_samples e)%nat -> i <> j ->
       at2 Rm i j = gauss_corr th (row (X e) i) (row (X e) j)) /\
    (forall i, (i < n_samples e)%nat ->
       at2 Rm i i = 1 + nugget_entry (nugget e) i) /\
    (forall i j, (i < n_samples e)%nat -> (j < n_samples e)%nat ->
       at2 Rm i j = at2 Rm j i).
Proof.
  intros [HX HD] Hth Hfit. unfold correlation_matrix.
  rewrite <- HX, <- HD in *.
  destruct (distances_loop (X e)) as (t & Ht & H0 & H1 & H2 & Hat).
  rewrite Ht. cbn [Py.bind].
  unfold dot_13. cbn [map3 dim0 dim1 dim2 at3].
  rewrite H1, Hth, Nat.eqb_refl. cbn [Py.bind].
  match goal with |- context [assign_diag_one_plus ?m ?g] =>
    destruct (assign_diag_ok m g) as (Rm & HR & Hr & Hc & Hentry) end.
  { cbn. congruence. }
  { cbn [map2 nrows]. rewrite H0. assumption. }
  exists Rm. split; [assumption|].
  cbn [map2 nrows ncols] in Hr, Hc.
  split; [congruence|]. split; [congruence|].
  assert (Hoff : forall i j, (i < nrows (X e))%nat -> (j < nrows (X e))%nat ->
            i <> j -> at2 Rm i j = gauss_corr th (row (X e) i) (row (X e) j)).
  { intros i j Hi Hj Hij. rewrite Hentry.
    destruct (Nat.eqb_spec i j) as [E|_]; [contradiction|].
    cbn [map2 at2]. unfold gauss_corr. f_equal. f_equal.
    rewrite Hth. apply rsum_ext. intros d Hd. cbn [row at1]. f_equal.
    rewrite Hat by assumption.
    destruct (Nat.ltb_spec i j), (Nat.ltb_spec j i),
      (Nat.ltb_spec i (nrows (X e))), (Nat.ltb_spec j (nrows (X e)));
      cbn [andb]; try lia; rewrite sq_abs_sub; ring. }
  split; [exact Hoff|]. split.
  - intros i Hi. rewrite Hentry, Nat.eqb_refl. reflexivity.
  - intros i j Hi Hj. destruct (Nat.eq_dec i j) as [->|Hij]; [reflexivity|].
    rewrite !Hoff by auto. unfold gauss_corr. f_equal. f_equal.
    apply rsum_ext. intros d _. cbn [row at1]. ring.
Qed.

(** C7. For every vector of length scales, the correlation matrix that the
    reduced-likelihood evaluator builds is the Gaussian kernel
    [exp(-sum_d thetas[d] * (X[i,d] - X[j,d])^2)] off the diagonal, is
    [1 + nugget] on the diagonal, and is symmetric. *)
Theorem correlation_matrix_entries (e : Engine) (th : arr1) :
  holds_training_set e ->
  len th = n_dims e ->
  nugget_fits (nugget e) (n_samples e) = true ->
  exists Rm,
    correlation_matrix e th = Ok Rm /\
    nrows Rm = n_samples e /\ ncols Rm = n_samples e /\
    (forall i j, (i < n_samples e)%nat -> (j < n_samples e)%nat -> i <> j ->
       at2 Rm i j = gauss_corr th (row (X e) i) (row (X e) j)) /\
    (forall i, (i < n_samples e)%nat ->
       at2 Rm i i = 1 + nugget_entry (nugget e) i) /\
    (forall i j, (i < n_samples e)%nat -> (j < n_samples e)%nat ->
       at2 Rm i j = at2 Rm j i).
Proof. exact (correlation_matrix_ok e th). Qed.

Lemma correlation_matrix_entries_witness :
  exists Rm,
    correlation_matrix two_point_engine (of_list [1]) = Ok Rm /\
    at2 Rm 0 0 = 1 + 10 * MACHINE_EPSILON /\
    at2 Rm 0 1 = at2 Rm 1 0.
Proof.
  destruct (correlation_matrix_entries two_point_engine (of_list [1]))
    as (Rm & HR & _ & _ & _ & Hdiag & Hsym).
  - split; reflexivity.
  - reflexivity.
  - reflexivity.
  - exists Rm. split; [exact HR|]. split.
    + apply (Hdiag O). simpl. lia.
    + apply Hsym; simpl; lia.
Defined.

(** ** The reduced-likelihood evaluator *)

Lemma dot_22_ok (a b : arr2) :
  ncols a = nrows b -> dot_22 a b = Ok (matmul a b).
Proof. intros H. unfold dot_22. rewrite H, Nat.eqb_refl. reflexivity. Qed.

Lemma broadcast2_ok (f : R -> R -> R) (a b : arr2) (r c : nat) :
  bdim (nrows a) (nrows b) = Some r -> bdim (ncols a) (ncols b) = Some c ->
  broadcast2 f a b = Ok (elementwise2 f r c a b).
Proof. intros Hr Hc. unfold broadcast2. rewrite Hr, Hc. reflexivity. Qed.

Lemma einsum_i_ij_ok (v : arr1) (m : arr2) :
  len v = nrows m -> einsum_i_ij v m = Ok (scale_rows v m).
Proof. intros H. unfold einsum_i_ij. rewrite H, Nat.eqb_refl. reflexivity. Qed.

Lemma calc_ok (svd : svd_t) (e : Engine) (targ : option arr1)
  (n_out : nat) :
  let th := match targ with None => thetas e | Some t => t end in
  holds_training_set e ->
  (1 <= n_samples e)%nat ->
  nrows (Y e) = n_samples e -> ncols (Y e) = n_out ->
  len th = n_dims e ->
  nugget_fits (nugget e) (n_samples e) = true ->
  svd_shapes svd (n_samples e) ->
  let n := n_samples e in
  let one := ones2 n 1 in
  exists Rm U S Vh inv_factors R_inv mu resid c_r SigmaSqr,
    correlation_matrix e th = Ok Rm /\
    svd Rm = (U, S, Vh) /\
    ((nrows U = n /\ ncols U = n) /\ len S = n /\
     (nrows Vh = n /\ ncols Vh = n)) /\
    inv_factors = map1 (fun s => s / (s ^ 2 + (1e-8 * at1 S 0) ^ 2)) S /\
    R_inv = matmul (transpose Vh) (scale_rows inv_factors (transpose U)) /\
    mu = elementwise2 Rdiv 1 n_out
           (matmul (transpose one) (matmul R_inv (Y e)))
           (matmul (transpose one) (matmul R_inv one)) /\
    resid = elementwise2 Rminus n n_out (Y e)
              (elementwise2 Rmult n n_out one mu) /\
    c_r = matmul R_inv resid /\
    SigmaSqr = map2 (fun v => v / INR n) (matmul (transpose resid) c_r) /\
    _calculate_reduced_likelihood_params svd e targ =
      Ok (map2 (fun v =>
                  1.0 * (- (INR n / 2.0) * ln v
                         - 0.5 * (2.0 * rsum n (fun k =>
                                     ln (Rabs (at1 inv_factors k))))))
            SigmaSqr,
          mkParams mu SigmaSqr inv_factors U Vh c_r R_inv).
Proof.
  intros th Hts Hn HY HYc Hth Hfit Hsvd n one. subst n one.
  destruct (correlation_matrix_ok e th Hts Hth Hfit)
    as (Rm & HR & Hr & Hc & _).
  specialize (Hsvd Rm Hr Hc).
  destruct (svd Rm) as [[U S] Vh] eqn:Hs.
  destruct Hsvd as ([HU1 HU2] & HS & [HV1 HV2]).
  exists Rm, U, S, Vh. do 6 eexists.
  split; [assumption|]. split; [exact Hs|].
  split; [auto|].
  do 6 (split; [reflexivity|]).
  unfold _calculate_reduced_likelihood_params. fold th.
  rewrite HR. cbn [Py.bind]. rewrite Hs.
  unfold index1. replace (0 <? len S)%nat with true
    by (symmetry; apply Nat.ltb_lt; lia).
  cbn [Py.bind].
  rewrite einsum_i_ij_ok by (cbn; congruence). cbn [Py.bind].
  rewrite dot_22_ok by (cbn; congruence). cbn [Py.bind].
  rewrite (dot_22_ok _ (Y e)) by (cbn; congruence). cbn [Py.bind].
  rewrite (dot_22_ok (transpose _)) by (cbn; congruence). cbn [Py.bind].
  rewrite (dot_22_ok _ (ones2 _ _)) by (cbn; congruence). cbn [Py.bind].
  rewrite (dot_22_ok (transpose _)) by (cbn; congruence). cbn [Py.bind].
  rewrite (broadcast2_ok Rdiv _ _ 1 n_out)
    by (cbn; try rewrite HYc; auto using bdim_same, bdim_one_r).
  cbn [Py.bind].
  rewrite (broadcast2_ok Rmult _ _ (n_samples e) n_out)
    by (cbn; auto using bdim_same, bdim_one_r, bdim_one_l).
  cbn [Py.bind].
  rewrite (broadcast2_ok Rminus _ _ (n_samples e) n_out)
    by (cbn; rewrite ?HY, ?HYc; auto using bdim_same).
  cbn [Py.bind].
  rewrite dot_22_ok by (cbn; congruence). cbn [Py.bind].
  rewrite dot_22_ok by (cbn; congruence). cbn [Py.bind].
  cbn [len map1]. rewrite HS. reflexivity.
Qed.

Lemma rsum_delta_out (n k : nat) (f v : nat -> R) :
  (n <= k)%nat ->
  rsum n (fun l => f l * (if (l =? k)%nat then v l else 0)) = 0.
Proof.
  induction n as [|n IH]; intros Hk; simpl; [reflexivity|].
  rewrite IH by lia. destruct (Nat.eqb_spec n k); [lia|]. ring.
Qed.

Lemma rsum_delta (n k : nat) (f v : nat -> R) :
  (k < n)%nat ->
  rsum n (fun l => f l * (if (l =? k)%nat then v l else 0)) = f k * v k.
Proof.
  induction n as [|n IH]; intros Hk; [lia|]. simpl.
  destruct (Nat.eqb_spec n k) as [->|Hne].
  - rewrite rsum_delta_out by lia. ring.
  - rewrite IH by lia. ring.
Qed.

(** C6. For every vector of length scales the reduced-likelihood evaluator
    damps the singular values with [h = 1e-8 * S[0]] into
    [inv_factors = S / (S^2 + h^2)], forms
    [R_inv = Vh^T . diag(inv_factors) . U^T],
    [mu = (1^T R_inv Y) / (1^T R_inv 1)], [c_r = R_inv (Y - 1 mu)],
    [SigmaSqr = (Y - 1 mu)^T c_r / n_samples], and returns
    [-(n_samples/2) * log(SigmaSqr) - 0.5 * logdet] with
    [logdet = 2 * sum(log|inv_factors|)]. *)
Theorem reduced_likelihood_closed_form (svd : svd_t) (e : Engine)
  (th : arr1) (n_out : nat) :
  holds_training_set e ->
  (1 <= n_samples e)%nat ->
  nrows (Y e) = n_samples e -> ncols (Y e) = n_out ->
  len th = n_dims e ->
  nugget_fits (nugget e) (n_samples e) = true ->
  svd_shapes svd (n_samples e) ->
  exists Rm U S Vh lik p,
    correlation_matrix e th = Ok Rm /\
    svd Rm = (U, S, Vh) /\
    _calculate_reduced_likelihood_params svd e (Some th) = Ok (lik, p) /\
    let n := n_samples e in
    let h := 1e-8 * at1 S 0 in
    let Ri := at2 (p_R_inv p) in
    let mu := at2 (p_mu p) 0 in
    let c := at2 (p_c_r p) in
    let s2 := at2 (p_SigmaSqr p) in
    let Yv := at2 (Y e) in
    let logdet := 2 * rsum n (fun k => ln (Rabs (at1 (p_S_inv p) k))) in
    (p_U p = U /\ p_Vh p = Vh /\ len (p_S_inv p) = n) /\
    (forall k, (k < n)%nat ->
       at1 (p_S_inv p) k = at1 S k / (at1 S k ^ 2 + h ^ 2)) /\
    (forall i j, (i < n)%nat -> (j < n)%nat ->
       Ri i j = at2 (matmul (matmul (transpose Vh) (diag (p_S_inv p)))
                       (transpose U)) i j) /\
    (forall o, (o < n_out)%nat ->
       mu o = rsum n (fun i => rsum n (fun j => Ri i j * Yv j o))
              / rsum n (fun i => rsum n (fun j => Ri i j))) /\
    (forall i o, (i < n)%nat -> (o < n_out)%nat ->
       c i o = rsum n (fun j => Ri i j * (Yv j o - mu o))) /\
    (forall o o', (o < n_out)%nat -> (o' < n_out)%nat ->
       s2 o o' = rsum n (fun i => (Yv i o - mu o) * c i o') / INR n) /\
    (forall o o', (o < n_out)%nat -> (o' < n_out)%nat ->
       at2 lik o o' = - (INR n / 2) * ln (s2 o o') - 0.5 * logdet).
Proof.
  intros Hts Hn HY HYc Hth Hfit Hsvd.
  destruct (calc_ok svd e (Some th) n_out Hts Hn HY HYc Hth Hfit Hsvd)
    as (Rm & U & S & Vh & inv & Ri & mu & resid & c & s2 & HR & Hs
        & ([HU1 HU2] & HS & [HV1 HV2]) & Einv & ERi & Emu & Eres & Ec & Es2
        & Hcalc).
  exists Rm, U, S, Vh. eexists. eexists.
  split; [exact HR|]. split; [exact Hs|]. split; [exact Hcalc|].
  cbv zeta. cbn [p_U p_Vh p_S_inv p_R_inv p_mu p_c_r p_SigmaSqr].
  assert (Hlen : len inv = n_samples e) by (subst inv; exact HS).
  assert (Hmu : forall o, (o < n_out)%nat ->
            at2 mu 0 o =
            rsum (n_samples e)
              (fun i => rsum (n_samples e) (fun j => at2 Ri i j * at2 (Y e) j o))
            / rsum (n_samples e)
                (fun i => rsum (n_samples e) (fun j => at2 Ri i j))).
  { intros o Ho. rewrite Emu.
    cbn [elementwise2 at2 matmul transpose ones2 nrows ncols].
    rewrite HYc, (bidx_in n_out o Ho). cbn [bidx Nat.eqb].
    assert (HRc : ncols Ri = n_samples e) by (rewrite ERi; cbn; exact HU1).
    rewrite HRc. f_equal.
    - apply rsum_ext. intros i _. ring.
    - apply rsum_ext. intros i _. rewrite Rmult_1_l.
      apply rsum_ext. intros j _. ring. }
  assert (Hres : forall i o, (i < n_samples e)%nat -> (o < n_out)%nat ->
            at2 resid i o = at2 (Y e) i o - at2 mu 0 o).
  { intros i o Hi Ho. rewrite Eres.
    cbn [elementwise2 at2 ones2 nrows ncols].
    replace (nrows mu) with 1%nat by (rewrite Emu; reflexivity).
    replace (ncols mu) with n_out by (rewrite Emu; reflexivity).
    rewrite HY, HYc, !(bidx_in n_out o Ho), !(bidx_in _ i Hi).
    cbn [bidx Nat.eqb]. ring. }
  assert (Hc : forall i o, (i < n_samples e)%nat -> (o < n_out)%nat ->
            at2 c i o =
            rsum (n_samples e)
              (fun j => at2 Ri i j * (at2 (Y e) j o - at2 mu 0 o))).
  { intros i o Hi Ho. rewrite Ec. cbn [matmul at2].
    replace (ncols Ri) with (n_samples e) by (rewrite ERi; cbn; auto).
    apply rsum_ext. intros j Hj. rewrite Hres by assumption. reflexivity. }
  assert (Hs2 : forall o o', (o < n_out)%nat -> (o' < n_out)%nat ->
            at2 s2 o o' =
            rsum (n_samples e)
              (fun i => (at2 (Y e) i o - at2 mu 0 o) * at2 c i o')
            / INR (n_samples e)).
  { intros o o' Ho Ho'. rewrite Es2. cbn [map2 matmul transpose at2 ncols].
    replace (nrows resid) with (n_samples e) by (rewrite Eres; reflexivity).
    f_equal. apply rsum_ext. intros i Hi. rewrite Hres by assumption.
    reflexivity. }
  split; [auto|].
  split; [intros k Hk; rewrite Einv; reflexivity|].
  split.
  { intros i j Hi Hj. rewrite ERi.
    cbn [matmul at2 transpose scale_rows ncols nrows diag].
    rewrite HV1, Hlen. apply rsum_ext. intros k Hk.
    rewrite (rsum_delta _ k (fun l => at2 Vh l i) (at1 inv)) by assumption.
    ring. }
  split; [exact Hmu|]. split; [exact Hc|]. split; [exact Hs2|].
  intros o o' Ho Ho'. cbn [map2 at2]. lra.
Qed.

Lemma reduced_likelihood_closed_form_witness :
  exists lik p,
    _calculate_reduced_likelihood_params unit_factors two_point_engine
      (Some (of_list [1])) = Ok (lik, p) /\
    at1 (p_S_inv p) 1 = 1 / (1 ^ 2 + (1e-8 * 1) ^ 2).
Proof.
  destruct (reduced_likelihood_closed_form unit_factors two_point_engine
              (of_list [1]) 1)
    as (Rm & U & S & Vh & lik & p & _ & Hs & Hcalc & _ & Hinv & _).
  - split; reflexivity.
  - simpl. lia.
  - reflexivity.
  - reflexivity.
  - reflexivity.
  - reflexivity.
  - intros Rm Hr Hc. simpl. auto.
  - exists lik, p. split; [exact Hcalc|].
    cbv zeta in Hinv. rewrite (Hinv 1%nat) by (simpl; lia).
    unfold unit_factors in Hs. injection Hs as _ HS _. subst S.
    reflexivity.
Defined.

(** ** Training *)

Lemma normalize_ok (x : arr2) :
  (d <- broadcast2 Rminus x (as_row (mean0 x)) ;;
   broadcast2 Rdiv d (as_row (clamp_zero (std0 x)))) = Ok (normalized x).
Proof.
  rewrite (broadcast2_ok Rminus _ _ (nrows x) (ncols x))
    by (cbn; auto using bdim_same, bdim_one_r).
  cbn [Py.bind].
  rewrite (broadcast2_ok Rdiv _ _ (nrows x) (ncols x))
    by (cbn; auto using bdim_same, bdim_one_r).
  reflexivity.
Qed.

Lemma start_point_ok (nd : nat) :
  broadcast2 Rplus
    (map2 (fun v => -3.0 * v) (ones2 nd 1))
    (map2 (fun v => 0.5 * v) (map2 (fun v => 5.0 * v) (ones2 nd 1)))
  = Ok (start_point nd).
Proof.
  apply broadcast2_ok; cbn [map2 ones2 nrows ncols]; apply bdim_same.
Qed.

Lemma train_run (svd : svd_t) (minimize : minimize_t) (x y : ndarray)
  (normalize : bool) (w : world) :
  let x2 := atleast_2d x in
  let y2 := atleast_2d y in
  train svd minimize x y normalize w =
  if (nrows x2 <=? 1)%nat then
    (Raise (ValueError "KrigingSurrogate require at least 2 training points."%string),
     mkWorld (set_shape (nrows x2) (ncols x2) (set_trained true (self w)))
       (events w))
  else
    let e := prepared x2 y2 normalize (self w) in
    let x0 := start_point (ncols x2) in
    let bounds := repeat (-3.0, 2.0) (ncols x2) in
    let evs := (events w ++ [CallMinimize x0 bounds])%list in
    match minimize (_calcll svd e) x0 "slsqp"%string 1e-3 bounds with
    | Raise ex => (Raise ex, mkWorld e evs)
    | Ok opt =>
        if negb (success opt) then
          (Raise (ValueError
                    ("Kriging Hyper-parameter optimization failed: "
                       ++ message opt)%string),
           mkWorld e evs)
        else
          let e' := set_thetas (map1 (Rpower 10) (opt_x opt)) e in
          match _calculate_reduced_likelihood_params svd e' None with
          | Raise ex => (Raise ex, mkWorld e' evs)
          | Ok lp =>
              (Raise SystemExit,
               mkWorld (fitted (snd lp) e')
                 (evs ++ debug_output e' (snd lp))%list)
          end
    end.
Proof.
  intros x2 y2. unfold train.
  unfold SurrogateModel_train, mbind, modify, get_self.
  cbn [self events set_shape set_trained n_samples n_dims].
  fold x2 y2.
  destruct (nrows x2 <=? 1)%nat eqn:Hn; [reflexivity|].
  cbv zeta. unfold prepared.
  destruct normalize; rewrite ?normalize_ok; unfold lift;
    cbn [self events n_dims set_X set_Y set_X_stats set_Y_stats set_shape
         set_trained];
    rewrite start_point_ok;
    unfold call_minimize, mbind, emit, lift; cbn [self events];
    (destruct (minimize _ _ _ _ _) as [opt|ex]; [|reflexivity]);
    (destruct (success opt); cbn [negb]; [|reflexivity]);
    cbn [self events];
    (destruct (_calculate_reduced_likelihood_params _ _ _) as [lp|ex];
     [|reflexivity]);
    unfold print, emit, exit, raise, attr;
    cbn; rewrite <- !app_assoc; reflexivity.
Qed.

Lemma train_keeps_prepared (svd : svd_t) (minimize : minimize_t)
  (x y : ndarray) (normalize : bool) (w : world) :
  (2 <= nrows (atleast_2d x))%nat ->
  let e' := self (snd (train svd minimize x y normalize w)) in
  let e0 := prepared (atleast_2d x) (atleast_2d y) normalize (self w) in
  (X e' = X e0 /\ Y e' = Y e0) /\
  (X_mean e' = X_mean e0 /\ X_std e' = X_std e0) /\
  (Y_mean e' = Y_mean e0 /\ Y_std e' = Y_std e0) /\
  (n_samples e' = n_samples e0 /\ n_dims e' = n_dims e0) /\
  trained e' = true /\ alpha e' = alpha (self w) /\ nugget e' = nugget (self w).
Proof.
  intros Hn. rewrite train_run. cbv zeta.
  replace (nrows (atleast_2d x) <=? 1)%nat with false
    by (symmetry; apply Nat.leb_gt; lia).
  destruct (minimize _ _ _ _ _) as [opt|ex];
    [destruct (success opt); cbn [negb];
     [destruct (_calculate_reduced_likelihood_params _ _ _) as [lp|ex]|]|];
    destruct normalize; cbn; repeat split; reflexivity.
Qed.

Lemma clamp_zero_nonzero (v : arr1) (d : nat) : at1 (clamp_zero v) d <> 0.
Proof.
  unfold clamp_zero. cbn. destruct (Req_dec_T (at1 v d) 0); lra.
Qed.

Lemma clamp_zero_at (v : arr1) (d : nat) :
  at1 (clamp_zero v) d = if Req_dec_T (at1 v d) 0 then 1 else at1 v d.
Proof. reflexivity. Qed.

(** C8. For every training set [train] accepts, a standard deviation of
    the inputs or outputs that is exactly zero is replaced by one before
    anything is divided by it, so every divisor is non-zero; with
    [normalize] true the stored [X] and [Y] are [(value - mean) / std] with
    that standard deviation, and with [normalize] false they are the raw
    values. *)
Theorem train_normalization (svd : svd_t) (minimize : minimize_t)
  (x y : ndarray) (normalize : bool) (w : world) :
  (2 <= nrows (atleast_2d x))%nat ->
  let x2 := atleast_2d x in
  let y2 := atleast_2d y in
  let e' := self (snd (train svd minimize x y normalize w)) in
  (X_mean e' = mean0 x2 /\ Y_mean e' = mean0 y2) /\
  (X_std e' = clamp_zero (std0 x2) /\ Y_std e' = clamp_zero (std0 y2)) /\
  (forall d, at1 (X_std e') d =
             if Req_dec_T (at1 (std0 x2) d) 0 then 1 else at1 (std0 x2) d) /\
  (forall d, at1 (Y_std e') d =
             if Req_dec_T (at1 (std0 y2) d) 0 then 1 else at1 (std0 y2) d) /\
  (forall d, at1 (X_std e') d <> 0) /\
  (forall d, at1 (Y_std e') d <> 0) /\
  (normalize = true ->
     (nrows (X e') = nrows x2 /\ ncols (X e') = ncols x2) /\
     (nrows (Y e') = nrows y2 /\ ncols (Y e') = ncols y2) /\
     (forall i d, (i < nrows x2)%nat -> (d < ncols x2)%nat ->
        at2 (X e') i d = (at2 x2 i d - at1 (X_mean e') d) / at1 (X_std e') d) /\
     (forall i d, (i < nrows y2)%nat -> (d < ncols y2)%nat ->
        at2 (Y e') i d = (at2 y2 i d - at1 (Y_mean e') d) / at1 (Y_std e') d)) /\
  (normalize = false -> X e' = x2 /\ Y e' = y2).
Proof.
  intros Hn x2 y2 e'.
  destruct (train_keeps_prepared svd minimize x y normalize w Hn)
    as ([HX HY] & [HXm HXs] & [HYm HYs] & _).
  fold e' x2 y2 in HX, HY, HXm, HXs, HYm, HYs.
  assert (EXm : X_mean e' = mean0 x2) by (rewrite HXm; destruct normalize; reflexivity).
  assert (EYm : Y_mean e' = mean0 y2) by (rewrite HYm; destruct normalize; reflexivity).
  assert (EXs : X_std e' = clamp_zero (std0 x2)) by (rewrite HXs; destruct normalize; reflexivity).
  assert (EYs : Y_std e' = clamp_zero (std0 y2)) by (rewrite HYs; destruct normalize; reflexivity).
  split; [auto|]. split; [auto|].
  rewrite EXm, EYm, EXs, EYs.
  split; [intros d; apply clamp_zero_at|].
  split; [intros d; apply clamp_zero_at|].
  split; [intros d; apply clamp_zero_nonzero|].
  split; [intros d; apply clamp_zero_nonzero|].
  split.
  - intros ->. rewrite HX, HY. cbn [prepared X Y set_X set_Y set_X_stats set_Y_stats].
    split; [split; reflexivity|]. split; [split; reflexivity|].
    split; intros i d Hi Hd; unfold normalized;
      cbn [elementwise2 at2 as_row nrows ncols len mean0 std0 clamp_zero map1];
      rewrite ?(bidx_in _ i Hi), ?(bidx_in _ d Hd); cbn [bidx Nat.eqb];
      reflexivity.
  - intros ->. rewrite HX, HY. split; reflexivity.
Qed.


Lemma train_normalization_witness :
  at1 (Y_std (self (snd (train unit_factors stay_at_start
                           (Arr2 (of_rows [[0]; [5]]))
                           (Arr2 (of_rows [[1]; [1]])) true fresh_world)))) 0
  <> 0.
Proof.
  apply (train_normalization unit_factors stay_at_start
           (Arr2 (of_rows [[0]; [5]])) (Arr2 (of_rows [[1]; [1]])) true
           fresh_world).
  simpl. lia.
Defined.

(** C9. When the input, seen as a 2-D array, has fewer than two rows,
    [train] raises the [ValueError] that asks for at least 2 training
    points, and the optimizer has not been called. *)
Theorem train_too_few_points (svd : svd_t) (minimize : minimize_t)
  (x y : ndarray) (normalize : bool) (w : world) :
  (nrows (atleast_2d x) <= 1)%nat ->
  train svd minimize x y normalize w =
    (Raise (ValueError
              "KrigingSurrogate require at least 2 training points."%string),
     mkWorld (set_shape (nrows (atleast_2d x)) (ncols (atleast_2d x))
                (set_trained true (self w)))
       (events w)) /\
  events (snd (train svd minimize x y normalize w)) = events w.
Proof.
  intros Hn. rewrite train_run. cbv zeta.
  replace (nrows (atleast_2d x) <=? 1)%nat with true
    by (symmetry; apply Nat.leb_le; exact Hn).
  split; reflexivity.
Qed.

Lemma train_too_few_points_witness :
  fst (train unit_factors stay_at_start (Arr1 (of_list [1; 2; 3]))
         (Arr0 7) true fresh_world)
  = Raise (ValueError
             "KrigingSurrogate require at least 2 training points."%string).
Proof.
  destruct (train_too_few_points unit_factors stay_at_start
              (Arr1 (of_list [1; 2; 3])) (Arr0 7) true fresh_world) as [H _].
  - simpl. lia.
  - rewrite H. reflexivity.
Defined.

Lemma prepared_shapes (x2 y2 : arr2) (normalize : bool) (e : Engine) :
  let e0 := prepared x2 y2 normalize e in
  (n_samples e0 = nrows x2 /\ n_dims e0 = ncols x2) /\
  (nrows (X e0) = nrows x2 /\ ncols (X e0) = ncols x2) /\
  (nrows (Y e0) = nrows y2 /\ ncols (Y e0) = ncols y2) /\
  (len (X_mean e0) = ncols x2 /\ len (X_std e0) = ncols x2) /\
  (len (Y_mean e0) = ncols y2 /\ len (Y_std e0) = ncols y2) /\
  trained e0 = true /\ alpha e0 = alpha e /\ nugget e0 = nugget e.
Proof. destruct normalize; cbn; repeat split; reflexivity. Qed.

(** C1. For every training set [train] accepts and every optimizer result
    that reports success, [train] stores [thetas = 10**x] and the seven
    attributes of the correlation model evaluated at those [thetas]; it then
    prints five values and raises [SystemExit] instead of returning. *)
Theorem train_success_then_exit (svd : svd_t) (minimize : minimize_t)
  (x y : ndarray) (normalize : bool) (w : world) (opt : OptimizeResult) :
  let x2 := atleast_2d x in
  let y2 := atleast_2d y in
  let e0 := prepared x2 y2 normalize (self w) in
  let x0 := start_point (ncols x2) in
  let bounds := repeat (-3.0, 2.0) (ncols x2) in
  let e1 := set_thetas (map1 (Rpower 10) (opt_x opt)) e0 in
  (2 <= nrows x2)%nat ->
  nrows y2 = nrows x2 ->
  nugget_fits (nugget (self w)) (nrows x2) = true ->
  alpha (self w) = Arr1 (zeros1 O) ->
  svd_shapes svd (nrows x2) ->
  minimize (_calcll svd e0) x0 "slsqp"%string 1e-3 bounds = Ok opt ->
  success opt = true ->
  len (opt_x opt) = ncols x2 ->
  exists lik p,
    _calculate_reduced_likelihood_params svd e1 None = Ok (lik, p) /\
    train svd minimize x y normalize w =
      (Raise SystemExit,
       mkWorld (fitted p e1)
         (events w ++ [CallMinimize x0 bounds] ++ debug_output e1 p)%list) /\
    thetas (fitted p e1) = map1 (Rpower 10) (opt_x opt) /\
    (c_r (fitted p e1) = Some (p_c_r p) /\ U (fitted p e1) = Some (p_U p) /\
     S_inv (fitted p e1) = Some (p_S_inv p) /\ Vh (fitted p e1) = Some (p_Vh p) /\
     mu (fitted p e1) = Some (p_mu p) /\
     SigmaSqr (fitted p e1) = Some (p_SigmaSqr p) /\
     R_inv (fitted p e1) = Some (p_R_inv p)) /\
    trained_engine (fitted p e1) (ncols y2).
Proof.
  intros x2 y2 e0 x0 bounds e1 Hn Hy Hfit Halpha Hsvd Hmin Hsucc Hlen.
  destruct (prepared_shapes x2 y2 normalize (self w))
    as ([Hns Hnd] & [HXr HXc] & [HYr HYc] & [HXm HXs] & [HYm HYs]
        & Htr & Hal & Hnug).
  fold e0 in Hns, Hnd, HXr, HXc, HYr, HYc, HXm, HXs, HYm, HYs, Htr, Hal, Hnug.
  assert (E1 : forall (A : Type) (f : Engine -> A),
            (forall t e, f (set_thetas t e) = f e) -> f e1 = f e0)
    by (intros A f Hf; apply Hf).
  destruct (calc_ok svd e1 None (ncols y2))
    as (Rm & Uf & Sf & Vf & inv & Ri & mu_ & resid & c & s2 & HR & Hs
        & ([HU1 HU2] & HS & [HV1 HV2]) & Einv & ERi & Emu & Eres & Ec & Es2
        & Hcalc).
  { split; cbn [e1 X n_samples n_dims set_thetas]; congruence. }
  { cbn [e1 n_samples set_thetas]. lia. }
  { cbn [e1 Y n_samples set_thetas]. congruence. }
  { cbn [e1 Y set_thetas]. assumption. }
  { cbn [e1 thetas n_dims set_thetas map1 len]. congruence. }
  { cbn [e1 nugget n_samples set_thetas]. rewrite Hnug, Hns. assumption. }
  { cbn [e1 n_samples set_thetas]. rewrite Hns. assumption. }
  cbn [e1 n_samples set_thetas] in HU1, HU2, HS, HV1, HV2, Hcalc, Es2, Eres, Emu.
  eexists. eexists. split; [exact Hcalc|].
  split.
  { rewrite train_run. cbv zeta. fold x2 y2 e0 x0 bounds.
    replace (nrows x2 <=? 1)%nat with false
      by (symmetry; apply Nat.leb_gt; lia).
    rewrite Hmin, Hsucc. cbn [negb]. fold e1. rewrite Hcalc.
    cbn [snd]. rewrite <- app_assoc. reflexivity. }
  split; [reflexivity|].
  split; [cbn; repeat split; reflexivity|].
  unfold trained_engine, holds_training_set.
  cbn [fitted trained n_samples n_dims X Y thetas X_mean X_std Y_mean Y_std
       c_r mu SigmaSqr R_inv alpha set_c_r set_U set_S_inv set_Vh set_mu
       set_SigmaSqr set_R_inv set_thetas e1 shape p_c_r p_mu p_SigmaSqr
       p_R_inv map1 len].
  split; [exact Htr|]. split; [change (2 <= n_samples e0)%nat; lia|].
  split; [split; [exact (eq_trans HXr (eq_sym Hns))
                 | exact (eq_trans HXc (eq_sym Hnd))]|].
  split; [split; [change (nrows (Y e0) = n_samples e0); congruence
                 | exact HYc]|].
  split; [change (len (opt_x opt) = n_dims e0); congruence|].
  split; [split; [change (len (X_mean e0) = n_dims e0)
                 | change (len (X_std e0) = n_dims e0)]; congruence|].
  split; [split; [exact HYm | exact HYs]|].
  rewrite ?Es2, ?Ec, ?Eres, ?Emu, ?ERi.
  cbn [matmul elementwise2 map2 transpose scale_rows nrows ncols].
  change (n_samples (prepared x2 y2 normalize (self w))) with (n_samples e0).
  rewrite HV2, HU1, Hns.
  repeat split; try reflexivity. rewrite <- Halpha. exact Hal.
Qed.

Lemma train_success_then_exit_witness :
  fst (train unit_factors stay_at_start (Arr2 (of_rows [[0]; [5]]))
         (Arr2 (of_rows [[1]; [1]])) true fresh_world)
  = Raise SystemExit.
Proof.
  destruct (train_success_then_exit unit_factors stay_at_start
              (Arr2 (of_rows [[0]; [5]])) (Arr2 (of_rows [[1]; [1]])) true
              fresh_world
              (mkOptimizeResult true
                 (mk1 (nrows (start_point 1))
                    (fun i => at2 (start_point 1) i O))
                 "Optimization terminated successfully."%string))
    as (lik & p & _ & Hrun & _).
  - simpl. lia.
  - reflexivity.
  - reflexivity.
  - reflexivity.
  - intros Rm Hr Hc. simpl. auto.
  - reflexivity.
  - reflexivity.
  - reflexivity.
  - rewrite Hrun. reflexivity.
Defined.

(** ** Prediction *)

Lemma dot_12_ok (v : arr1) (m : arr2) :
  len v = nrows m ->
  dot_12 v m =
    Ok (mk1 (ncols m) (fun j => rsum (len v) (fun k => at1 v k * at2 m k j))).
Proof. intros H. unfold dot_12. rewrite H, Nat.eqb_refl. reflexivity. Qed.

Lemma predict_step_ok (e : Engine) (dt : dtype) (x_n : arr2) (j : nat)
  (r : arr2) :
  holds_training_set e -> len (thetas e) = n_dims e ->
  ncols x_n = n_dims e ->
  predict_upto e dt x_n j r ->
  exists r',
    predict_step e dt x_n j r = Ok r' /\ predict_upto e dt x_n (S j) r'.
Proof.
  intros [HX HD] Hth Hx (Hr & Hc & Hat). unfold predict_step.
  rewrite (broadcast2_ok Rminus _ _ (n_samples e) (n_dims e))
    by (cbn [as_row row nrows ncols len]; rewrite ?HX, ?HD, ?Hx;
        auto using bdim_one_l, bdim_same).
  cbn [Py.bind].
  rewrite dot_12_ok by (cbn; congruence). cbn [Py.bind].
  unfold assign_row. cbn [map1 len map2 transpose elementwise2 nrows ncols].
  rewrite Hc, fits_same.
  eexists. split; [reflexivity|].
  unfold predict_upto. cbn [nrows ncols at2].
  split; [assumption|]. split; [reflexivity|].
  intros k i Hk Hi. rewrite (bidx_in _ i Hi).
  destruct (Nat.eqb_spec k j) as [->|Hne].
  - replace (j <? S j)%nat with true by (symmetry; apply Nat.ltb_lt; lia).
    cbn [map1 at1]. unfold gauss_corr. f_equal. f_equal. f_equal.
    apply rsum_ext. intros d Hd.
    cbn [map2 transpose elementwise2 at1 at2 as_row row nrows ncols len].
    rewrite HX, HD, (bidx_in _ i Hi), Hx.
    rewrite (bidx_in (n_dims e) d) by lia.
    unfold Rsqr. ring.
  - rewrite Hat by assumption.
    destruct (Nat.ltb_spec k j), (Nat.ltb_spec k (S j)); try lia; reflexivity.
Qed.

Lemma predict_loop (e : Engine) (dt : dtype) (x_n : arr2) :
  holds_training_set e -> len (thetas e) = n_dims e ->
  ncols x_n = n_dims e ->
  exists r,
    for_range (nrows x_n) (predict_step e dt x_n)
      (zeros2 (nrows x_n) (n_samples e)) = Ok r /\
    predict_upto e dt x_n (nrows x_n) r.
Proof.
  intros Hts Hth Hx.
  apply for_range_invariant.
  - unfold predict_upto. cbn. repeat split; auto.
  - intros k t _ Hinv. apply predict_step_ok; assumption.
Qed.

Lemma query_points_ok (e : Engine) (x2 : arr2) (normalize : bool) :
  len (X_mean e) = ncols x2 -> len (X_std e) = ncols x2 ->
  (if normalize then
     d <- broadcast2 Rminus x2 (as_row (X_mean e)) ;;
     broadcast2 Rdiv d (as_row (X_std e))
   else Ok x2) = Ok (query_points e x2 normalize).
Proof.
  intros Hm Hs. destruct normalize; [|reflexivity].
  rewrite (broadcast2_ok Rminus _ _ (nrows x2) (ncols x2))
    by (cbn; rewrite ?Hm; auto using bdim_same, bdim_one_r).
  cbn [Py.bind].
  rewrite (broadcast2_ok Rdiv _ _ (nrows x2) (ncols x2))
    by (cbn; rewrite ?Hs; auto using bdim_same, bdim_one_r).
  reflexivity.
Qed.

Lemma query_points_shape (e : Engine) (x2 : arr2) (normalize : bool) :
  nrows (query_points e x2 normalize) = nrows x2 /\
  ncols (query_points e x2 normalize) = ncols x2.
Proof. destruct normalize; split; reflexivity. Qed.

Lemma shape_some (o : option arr2) (r c : nat) :
  shape o = Some (r, c) -> exists m, o = Some m /\ nrows m = r /\ ncols m = c.
Proof.
  destruct o as [m|]; cbn; intros H; [|discriminate].
  injection H as Hr Hc. exists m. auto.
Qed.

Lemma predict_run (e : Engine) (n_out : nat) (x : typed)
  (eval_rmse normalize : bool) :
  trained_engine e n_out -> ncols (atleast_2d (values x)) = n_dims e ->
  let x2 := atleast_2d (values x) in
  let x_n := query_points e x2 normalize in
  let n := n_samples e in
  let one := ones2 n 1 in
  exists r mu_ c s2 Ri,
    (mu e = Some mu_ /\ c_r e = Some c /\
     SigmaSqr e = Some s2 /\ R_inv e = Some Ri) /\
    (nrows r = n /\ ncols r = nrows x2 /\
     forall i k, (i < n)%nat -> (k < nrows x2)%nat ->
       at2 r i k =
       astype (dtype_of x)
         (gauss_corr (thetas e) (row x_n k) (row (X e) i))) /\
    let y := elementwise2 Rplus (nrows x2) n_out mu_ (matmul (transpose r) c) in
    let a := matmul (transpose r) (matmul Ri r) in
    let b := matmul (transpose one) (matmul Ri r) in
    let c1 := matmul (transpose one) (matmul Ri one) in
    let q := elementwise2 Rdiv 1 (nrows x2)
               (map2 (fun v => (1.0 - v) ^ 2) b) c1 in
    let s := elementwise2 Rplus (nrows x2) (nrows x2)
               (map2 (fun v => 1.0 - v) a) q in
    predict e x eval_rmse normalize =
      if eval_rmse then
        mse <- broadcast2 Rmult s2 s ;;
        Ok (PMeanRmse y (sqrt2 (clamp_negative mse)))
      else Ok (PMean y).
Proof.
  intros (Htr & Hn & Hts & [HYr HYc] & Hth & [HXm HXs] & _ & Hc & Hmu & Hs2
          & HRi & _) Hx x2 x_n n one.
  destruct (shape_some _ _ _ Hc) as (c & Ec & Hcr & Hcc).
  destruct (shape_some _ _ _ Hmu) as (mu_ & Emu & Hmr & Hmc).
  destruct (shape_some _ _ _ Hs2) as (s2 & Es2 & Hsr & Hsc).
  destruct (shape_some _ _ _ HRi) as (Ri & ERi & HRr & HRc).
  destruct (query_points_shape e x2 normalize) as [Hqr Hqc]. fold x_n in Hqr, Hqc.
  destruct (predict_loop e (dtype_of x) x_n Hts Hth)
    as (rl & Hloop & Hlr & Hlc & Hat).
  { fold x2 in Hx. congruence. }
  exists (transpose rl), mu_, c, s2, Ri.
  split; [auto|].
  split.
  { cbn [transpose nrows ncols]. split; [exact Hlc|]. split; [congruence|].
    intros i k Hi Hk. cbn [transpose at2]. rewrite Hat by (fold n; lia).
    replace (k <? nrows x_n)%nat with true
      by (symmetry; apply Nat.ltb_lt; lia).
    reflexivity. }
  cbv zeta. unfold predict, SurrogateModel_predict. rewrite Htr.
  cbn [Py.bind]. fold x2.
  rewrite query_points_ok by (fold x2 in Hx; congruence).
  cbn [Py.bind]. fold x_n. cbn [zeros2 nrows].
  rewrite Hqr, Nat.min_id, <- Hqr, Hloop. cbn [Py.bind].
  rewrite Hlc.
  replace (1 <? n_samples e)%nat with true
    by (symmetry; apply Nat.ltb_lt; lia).
  rewrite Emu, Ec. cbn [attr Py.bind].
  rewrite dot_22_ok by (cbn; congruence). cbn [Py.bind].
  rewrite (broadcast2_ok Rplus _ _ (nrows x_n) n_out)
    by (cbn [matmul transpose nrows ncols];
        rewrite ?Hmr, ?Hmc, ?Hlr, ?Hcc; auto using bdim_same, bdim_one_l).
  cbn [Py.bind].
  destruct eval_rmse; [|reflexivity].
  rewrite Es2, ERi. cbn [attr Py.bind].
  rewrite !(dot_22_ok Ri) by (cbn; congruence). cbn [Py.bind].
  rewrite !dot_22_ok by (cbn; congruence). cbn [Py.bind].
  rewrite (broadcast2_ok Rdiv _ _ 1 (nrows x_n))
    by (cbn [map2 matmul transpose ones2 nrows ncols];
        rewrite ?Hlr; auto using bdim_same, bdim_one_r).
  cbn [Py.bind].
  rewrite (broadcast2_ok Rplus _ _ (nrows x_n) (nrows x_n))
    by (cbn [map2 matmul transpose elementwise2 nrows ncols];
        rewrite ?Hlr; auto using bdim_same, bdim_one_r).
  cbn [Py.bind]. reflexivity.
Qed.

Lemma rsum_zero (n : nat) (f : nat -> R) :
  (forall k, (k < n)%nat -> f k = 0) -> rsum n f = 0.
Proof.
  induction n as [|n IH]; intros H; simpl; [reflexivity|].
  rewrite IH by (intros k Hk; apply H; lia). rewrite (H n) by lia. ring.
Qed.

Lemma one_point_zero : 1.0 = 1.
Proof. lra. Qed.

Lemma trunc_nonneg (v : R) : 0 <= v -> trunc v = IZR (Int_part v).
Proof. intros H. unfold trunc. destruct (Rle_dec 0 v); [reflexivity | lra]. Qed.

Lemma trunc_below_one (v : R) : 0 <= v < 1 -> trunc v = 0.
Proof.
  intros [H0 H1]. rewrite trunc_nonneg by assumption.
  rewrite <- (Int_part_spec v 0%Z); [reflexivity | simpl; lra].
Qed.

Lemma trunc_one : trunc 1 = 1.
Proof.
  rewrite trunc_nonneg by lra.
  rewrite <- (Int_part_spec 1 1%Z); [reflexivity | simpl; lra].
Qed.

Lemma gauss_corr_pos (th a b : arr1) : 0 < gauss_corr th a b.
Proof. unfold gauss_corr. apply exp_pos. Qed.

Lemma np_sqrt_clamped (v : R) :
  np_sqrt (if Rlt_dec v 0 then 0 else v)
  = Num (sqrt (if Rlt_dec v 0 then 0 else v)).
Proof.
  unfold np_sqrt. destruct (Rlt_dec v 0) as [Hv|Hv].
  - destruct (Rlt_dec 0 0); [lra | reflexivity].
  - destruct (Rlt_dec v 0); [contradiction | reflexivity].
Qed.

Lemma rsum_nonneg (n : nat) (f : nat -> R) :
  (forall k, (k < n)%nat -> 0 <= f k) -> 0 <= rsum n f.
Proof.
  induction n as [|n IH]; intros H; simpl; [lra|].
  assert (0 <= rsum n f) by (apply IH; intros k Hk; apply H; lia).
  assert (0 <= f n) by (apply H; lia). lra.
Qed.

Lemma gauss_corr_bounds (th a b : arr1) :
  (forall d, (d < len th)%nat -> 0 <= at1 th d) ->
  0 < gauss_corr th a b <= 1.
Proof.
  intros Hth. unfold gauss_corr. split; [apply exp_pos|].
  rewrite <- exp_0.
  assert (0 <= rsum (len th)
                 (fun d => at1 th d * (at1 a d - at1 b d) ^ 2)).
  { apply rsum_nonneg. intros d Hd. apply Rmult_le_pos; [auto|].
    apply pow2_ge_0. }
  destruct (Req_dec (rsum (len th)
                       (fun d => at1 th d * (at1 a d - at1 b d) ^ 2)) 0)
    as [E|E].
  - rewrite E, Ropp_0. lra.
  - left. apply exp_increasing. lra.
Qed.

Lemma gauss_corr_same (th a b : arr1) :
  (forall d, (d < len th)%nat -> at1 a d = at1 b d) ->
  gauss_corr th a b = 1.
Proof.
  intros H. unfold gauss_corr.
  rewrite rsum_zero; [rewrite Ropp_0; apply exp_0|].
  intros d Hd. rewrite H by assumption. ring.
Qed.

Lemma gauss_corr_ext (th a a' b : arr1) :
  (forall d, (d < len th)%nat -> at1 a d = at1 a' d) ->
  gauss_corr th a b = gauss_corr th a' b.
Proof.
  intros H. unfold gauss_corr. f_equal. f_equal.
  apply rsum_ext. intros d Hd. rewrite H by assumption. reflexivity.
Qed.

Lemma predict_mean_ok (e : Engine) (n_out : nat) (x : typed)
  (normalize : bool) :
  trained_engine e n_out -> ncols (atleast_2d (values x)) = n_dims e ->
  let x2 := atleast_2d (values x) in
  let x_n := query_points e x2 normalize in
  let r := fun k i =>
             astype (dtype_of x)
               (gauss_corr (thetas e) (row x_n k) (row (X e) i)) in
  exists mu_ c y,
    (mu e = Some mu_ /\ c_r e = Some c) /\
    predict e x false normalize = Ok (PMean y) /\
    (nrows y = nrows x2 /\ ncols y = n_out) /\
    (forall k o, (k < nrows x2)%nat -> (o < n_out)%nat ->
       at2 y k o =
       at2 mu_ 0 o + rsum (n_samples e) (fun i => r k i * at2 c i o)).
Proof.
  intros Htr Hx x2 x_n r.
  destruct (predict_run e n_out x false normalize Htr Hx)
    as (rt & mu_ & c & s2 & Ri & (Emu & Ec & _ & _) & (Hr & Hc & Hat) & Hrun).
  cbv zeta in Hrun. fold x2 x_n in Hat, Hrun, Hc.
  destruct Htr as (_ & _ & _ & _ & Hth & _ & _ & Hcs & Hms & _).
  rewrite Emu in Hms. rewrite Ec in Hcs. cbn in Hms, Hcs.
  injection Hms as Hmr Hmc. injection Hcs as Hcr Hcc.
  exists mu_, c. eexists.
  split; [auto|]. split; [exact Hrun|].
  split; [split; reflexivity|].
  intros k o Hk Ho.
  cbn [elementwise2 at2 matmul transpose nrows ncols].
  rewrite Hmr, Hmc, Hr, Hc, Hcc, !(bidx_in _ o Ho), !(bidx_in _ k Hk).
  cbn [bidx Nat.eqb]. f_equal.
  apply rsum_ext. intros i Hi. rewrite Hat by assumption. reflexivity.
Qed.

(** C4. On a fitted instance [predict] measures every query point against
    all training points with the stored [thetas] and the Gaussian kernel of
    training, adds no nugget (a query that coincides with a training point
    has correlation exactly 1), and with [eval_rmse] false returns the mean
    alone.  The array [r] takes the element type of the query: for a
    floating-point query the mean is [mu + r^T c_r] with [r] the vector of
    correlations, but for an integer query every correlation is truncated
    to an integer (0 or 1 for non-negative length scales) before it enters
    the mean. *)
Theorem predict_mean (e : Engine) (n_out : nat) (x : typed)
  (normalize : bool) :
  trained_engine e n_out -> ncols (atleast_2d (values x)) = n_dims e ->
  let x2 := atleast_2d (values x) in
  let x_n := query_points e x2 normalize in
  let g := fun k i => gauss_corr (thetas e) (row x_n k) (row (X e) i) in
  exists mu_ c y,
    (mu e = Some mu_ /\ c_r e = Some c) /\
    predict e x false normalize = Ok (PMean y) /\
    (nrows y = nrows x2 /\ ncols y = n_out) /\
    (forall k o, (k < nrows x2)%nat -> (o < n_out)%nat ->
       at2 y k o =
       at2 mu_ 0 o
       + rsum (n_samples e)
           (fun i => astype (dtype_of x) (g k i) * at2 c i o)) /\
    (dtype_of x = float64 ->
     forall k o, (k < nrows x2)%nat -> (o < n_out)%nat ->
       at2 y k o =
       at2 mu_ 0 o + rsum (n_samples e) (fun i => g k i * at2 c i o)) /\
    (dtype_of x = int64 ->
     forall k i,
       astype (dtype_of x) (g k i) = IZR (Int_part (g k i)) /\
       ((forall d, (d < n_dims e)%nat -> 0 <= at1 (thetas e) d) ->
        astype (dtype_of x) (g k i) = 0 \/
        astype (dtype_of x) (g k i) = 1)) /\
    (forall k i,
       (forall d, (d < n_dims e)%nat -> at2 x_n k d = at2 (X e) i d) ->
       g k i = 1).
Proof.
  intros Htr Hx x2 x_n g.
  destruct (predict_mean_ok e n_out x normalize Htr Hx)
    as (mu_ & c & y & Hattr & Hrun & Hshape & Hy).
  fold x2 x_n in Hy.
  assert (Hth : len (thetas e) = n_dims e) by apply Htr.
  exists mu_, c, y.
  split; [exact Hattr|]. split; [exact Hrun|]. split; [exact Hshape|].
  split; [exact Hy|]. split; [|split].
  - intros Hdt k o Hk Ho. rewrite Hy by assumption. rewrite Hdt.
    reflexivity.
  - intros Hdt k i. rewrite Hdt. cbn [astype].
    assert (Hpos : 0 < g k i) by apply gauss_corr_pos.
    split; [apply trunc_nonneg; lra|].
    intros Hnn.
    assert (Hle : g k i <= 1).
    { apply gauss_corr_bounds. intros d Hd. apply Hnn. congruence. }
    destruct (Req_dec (g k i) 1) as [E|E].
    + right. rewrite E. apply trunc_one.
    + left. apply trunc_below_one. lra.
  - intros k i Heq. unfold g, gauss_corr.
    rewrite rsum_zero; [rewrite Ropp_0; apply exp_0|].
    intros d Hd. cbn [row at1]. rewrite Heq by lia. ring.
Qed.

Lemma predict_mean_witness :
  exists y,
    predict two_point_engine (int_array (Arr2 (of_rows [[0]; [1]]))) false
      true = Ok (PMean y) /\
    at2 y 0 0 = -1 /\ at2 y 1 0 = 1 /\
    at2 y 0 0 <>
    0 + rsum 2
          (fun i =>
             gauss_corr (of_list [1])
               (row (query_points two_point_engine (of_rows [[0]; [1]]) true)
                  0)
               (row (of_rows [[-1]; [1]]) i)
             * at2 (of_rows [[-1]; [1]]) i 0).
Proof.
  destruct (predict_mean two_point_engine 1
              (int_array (Arr2 (of_rows [[0]; [1]]))) true)
    as (mu_ & c & y & [Emu Ec] & Hrun & _ & Hy & _).
  - repeat split; try reflexivity; simpl; lia.
  - reflexivity.
  - injection Emu as <-. injection Ec as <-.
    assert (H4 : 0 < exp (-4) < 1).
    { split; [apply exp_pos|]. rewrite <- exp_0. apply exp_increasing. lra. }
    assert (E00 : gauss_corr (of_list [1])
                    (row (query_points two_point_engine
                            (of_rows [[0]; [1]]) true) 0)
                    (row (of_rows [[-1]; [1]]) 0) = 1).
    { unfold gauss_corr. cbn.
      transitivity (exp 0); [f_equal; lra | apply exp_0]. }
    assert (E01 : gauss_corr (of_list [1])
                    (row (query_points two_point_engine
                            (of_rows [[0]; [1]]) true) 0)
                    (row (of_rows [[-1]; [1]]) 1) = exp (-4)).
    { unfold gauss_corr. cbn. f_equal. lra. }
    assert (E10 : gauss_corr (of_list [1])
                    (row (query_points two_point_engine
                            (of_rows [[0]; [1]]) true) 1)
                    (row (of_rows [[-1]; [1]]) 0) = exp (-4)).
    { unfold gauss_corr. cbn. f_equal. lra. }
    assert (E11 : gauss_corr (of_list [1])
                    (row (query_points two_point_engine
                            (of_rows [[0]; [1]]) true) 1)
                    (row (of_rows [[-1]; [1]]) 1) = 1).
    { unfold gauss_corr. cbn.
      transitivity (exp 0); [f_equal; lra | apply exp_0]. }
    exists y. split; [exact Hrun|].
    rewrite (Hy 0%nat 0%nat), (Hy 1%nat 0%nat) by (simpl; lia).
    cbn [rsum n_samples two_point_engine thetas X dtype_of int_array values
         atleast_2d astype].
    rewrite E00, E01, E10, E11, trunc_one, (trunc_below_one (exp (-4)))
      by lra.
    cbn. repeat split; lra.
Defined.

Lemma predict_rmse_form (e : Engine) (x : typed) (normalize : bool)
  (y : arr2) (rmse : farr2) :
  predict e x true normalize = Ok (PMeanRmse y rmse) ->
  exists mse, rmse = sqrt2 (clamp_negative mse).
Proof.
  unfold predict. intros H.
  repeat match type of H with
         | Py.bind ?m _ = _ =>
             destruct m; cbn [Py.bind] in H; [|discriminate H]
         end.
  injection H as _ H. eexists. symmetry. exact H.
Qed.

(** C5. On a fitted instance [predict] with [eval_rmse] true computes, for
    a query point, [SigmaSqr * (1 - r^T R_inv r + (1 - 1^T R_inv r)^2 /
    (1^T R_inv 1))] from the array [r] it has stored (the correlations, cast
    to the element type of the query), replaces a negative value by zero,
    and returns the mean with the square root of the result.  [np.sqrt]
    would return [nan] on a negative value; because of the replacement
    every RMSE value [predict] ever returns is a number, the square root of
    a non-negative number, hence non-negative. *)
Theorem predict_rmse (e : Engine) (n_out : nat) (x : typed)
  (normalize : bool) :
  trained_engine e n_out ->
  nrows (atleast_2d (values x)) = 1%nat ->
  ncols (atleast_2d (values x)) = n_dims e ->
  let x_n := query_points e (atleast_2d (values x)) normalize in
  let n := n_samples e in
  let r := fun i =>
             astype (dtype_of x)
               (gauss_corr (thetas e) (row x_n 0) (row (X e) i)) in
  (exists mu_ c s2 Ri y rmse,
    (mu e = Some mu_ /\ c_r e = Some c /\
     SigmaSqr e = Some s2 /\ R_inv e = Some Ri) /\
    predict e x true normalize = Ok (PMeanRmse y rmse) /\
    (forall o, (o < n_out)%nat ->
       at2 y 0 o = at2 mu_ 0 o + rsum n (fun i => r i * at2 c i o)) /\
    (fnrows rmse = n_out /\ fncols rmse = n_out) /\
    forall o o', (o < n_out)%nat -> (o' < n_out)%nat ->
      let rRr := rsum n (fun i => r i * rsum n (fun j => at2 Ri i j * r j)) in
      let oneRr := rsum n (fun i => rsum n (fun j => at2 Ri i j * r j)) in
      let oneRone := rsum n (fun i => rsum n (fun j => at2 Ri i j)) in
      let mse := at2 s2 o o' * (1 - rRr + (1 - oneRr) ^ 2 / oneRone) in
      fat2 rmse o o' = Num (sqrt (if Rlt_dec mse 0 then 0 else mse))) /\
  (forall x' nm y' rmse',
     predict e x' true nm = Ok (PMeanRmse y' rmse') ->
     forall i j, exists s, fat2 rmse' i j = Num s /\ 0 <= s).
Proof.
  intros Htr Hx1 Hx x_n n r. split.
  - destruct (predict_run e n_out x true normalize Htr Hx)
      as (rt & mu_ & c & s2 & Ri & (Emu & Ec & Es2 & ERi) & (Hr & Hc & Hat)
          & Hrun).
    cbv zeta in Hrun. fold x_n in Hat. rewrite Hx1 in Hrun, Hat, Hc.
    destruct Htr as (_ & _ & _ & _ & Hth & _ & _ & Hcs & Hms & Hss & HRs & _).
    rewrite Emu in Hms. rewrite Ec in Hcs. rewrite Es2 in Hss.
    rewrite ERi in HRs. cbn in Hms, Hcs, Hss, HRs.
    injection Hms as Hmr Hmc. injection Hcs as Hcr Hcc.
    injection Hss as Hsr Hsc. injection HRs as HRr HRc.
    rewrite (broadcast2_ok Rmult _ _ n_out n_out) in Hrun
      by (cbn [elementwise2 nrows ncols]; rewrite ?Hsr, ?Hsc;
          auto using bdim_one_r).
    cbn [Py.bind] in Hrun.
    exists mu_, c, s2, Ri. eexists. eexists.
    split; [auto|]. split; [exact Hrun|].
    split.
    { intros o Ho.
      cbn [elementwise2 at2 matmul transpose nrows ncols].
      rewrite Hmr, Hmc, Hr, Hc, Hcc, !(bidx_in _ o Ho). cbn [bidx Nat.eqb].
      f_equal. apply rsum_ext. intros i Hi.
      rewrite Hat by (auto; lia). reflexivity. }
    split; [split; reflexivity|].
    intros o o' Ho Ho'. cbv zeta.
    cbn [sqrt2 fat2 map2 clamp_negative elementwise2 at2 matmul transpose
         ones2 nrows ncols].
    rewrite np_sqrt_clamped.
    rewrite Hsr, Hsc, Hr, Hc, HRc, (bidx_in _ o Ho), (bidx_in _ o' Ho').
    cbn [bidx Nat.eqb]. rewrite !one_point_zero.
    assert (Ea : rsum (n_samples e)
                   (fun k => at2 rt k 0
                             * rsum (n_samples e)
                                 (fun k0 => at2 Ri k k0 * at2 rt k0 0))
                 = rsum n (fun i => r i * rsum n (fun j => at2 Ri i j * r j))).
    { apply rsum_ext. intros i Hi. rewrite Hat by (auto; lia). f_equal.
      apply rsum_ext. intros j Hj. rewrite Hat by (auto; lia). reflexivity. }
    assert (Eb : rsum (n_samples e)
                   (fun k => 1 * rsum (n_samples e)
                                   (fun k0 => at2 Ri k k0 * at2 rt k0 0))
                 = rsum n (fun i => rsum n (fun j => at2 Ri i j * r j))).
    { apply rsum_ext. intros i Hi. rewrite Rmult_1_l.
      apply rsum_ext. intros j Hj. rewrite Hat by (auto; lia). reflexivity. }
    assert (Ec1 : rsum (n_samples e)
                    (fun k => 1 * rsum (n_samples e)
                                    (fun k0 => at2 Ri k k0 * 1))
                  = rsum n (fun i => rsum n (fun j => at2 Ri i j))).
    { apply rsum_ext. intros i Hi. rewrite Rmult_1_l.
      apply rsum_ext. intros j Hj. ring. }
    rewrite Ea, Eb, Ec1. reflexivity.
  - intros x' nm y' rmse' H i j.
    destruct (predict_rmse_form e x' nm y' rmse' H) as [mse ->].
    cbn [sqrt2 fat2 clamp_negative map2 at2]. rewrite np_sqrt_clamped.
    eexists. split; [reflexivity | apply sqrt_pos].
Qed.

Lemma predict_rmse_witness :
  exists y rmse,
    predict two_point_engine (int_array (Arr2 (of_rows [[2]]))) true true
      = Ok (PMeanRmse y rmse) /\
    fat2 rmse 0 0 = Num (sqrt (3 / 2)) /\
    let g := fun i =>
               gauss_corr (of_list [1])
                 (row (query_points two_point_engine (of_rows [[2]]) true) 0)
                 (row (of_rows [[-1]; [1]]) i) in
    1 * (1 - (g 0%nat * g 0%nat + g 1%nat * g 1%nat)
         + (1 - (g 0%nat + g 1%nat)) ^ 2 / 2) < 3 / 2.
Proof.
  destruct (predict_rmse two_point_engine 1
              (int_array (Arr2 (of_rows [[2]]))) true)
    as [(mu_ & c & s2 & Ri & y & rmse & (_ & _ & Es2 & ERi) & Hrun & _ & _
         & Hrm) _].
  - repeat split; try reflexivity; simpl; lia.
  - reflexivity.
  - reflexivity.
  - injection Es2 as <-. injection ERi as <-.
    assert (E0 : gauss_corr (of_list [1])
                   (row (query_points two_point_engine (of_rows [[2]]) true)
                      0)
                   (row (of_rows [[-1]; [1]]) 0) = exp (-16)).
    { unfold gauss_corr. cbn. f_equal. lra. }
    assert (E1 : gauss_corr (of_list [1])
                   (row (query_points two_point_engine (of_rows [[2]]) true)
                      0)
                   (row (of_rows [[-1]; [1]]) 1) = exp (-4)).
    { unfold gauss_corr. cbn. f_equal. lra. }
    assert (H4 : 0 < exp (-4) < / 2).
    { split; [apply exp_pos|].
      assert (exp (-4) < exp (-1)) by (apply exp_increasing; lra).
      assert (H1 : 2 < exp 1) by (generalize (exp_ineq1 1); lra).
      assert (exp (-1) = / exp 1) by apply exp_Ropp.
      assert (/ exp 1 < / 2) by (apply Rinv_lt_contravar; lra).
      lra. }
    assert (H16 : 0 < exp (-16) < / 2).
    { split; [apply exp_pos|].
      assert (exp (-16) < exp (-4)) by (apply exp_increasing; lra). lra. }
    exists y, rmse. split; [exact Hrun|]. split.
    + rewrite (Hrm 0%nat 0%nat) by lia.
      cbn [rsum n_samples two_point_engine thetas X dtype_of int_array values
           atleast_2d astype].
      rewrite E0, E1, !(trunc_below_one (exp (-16))),
        !(trunc_below_one (exp (-4))) by lra.
      cbn [of_rows at2 nth].
      f_equal. f_equal.
      destruct (Rlt_dec _ 0) as [Hneg|_]; [exfalso; lra | lra].
    + cbv beta zeta. rewrite E0, E1. nra.
Defined.
(** ** The Jacobian and the scalar predictor *)

Lemma broadcast1_ok (f : R -> R -> R) (a b : arr1) :
  len a = len b ->
  broadcast1 f a b =
    Ok (mk1 (len a)
          (fun i => f (at1 a (bidx (len a) i)) (at1 b (bidx (len b) i)))).
Proof. intros H. unfold broadcast1. rewrite H, bdim_same. reflexivity. Qed.

Lemma linearize_x_n_ok (e : Engine) (q : arr1) :
  len (X_mean e) = len q -> len (X_std e) = len q ->
  exists v,
    linearize_x_n e q = Ok v /\ len v = len q /\
    forall d, (d < len q)%nat ->
      at1 v d = (at1 q d - at1 (X_mean e) d) / at1 (X_std e) d.
Proof.
  intros Hm Hs. unfold linearize_x_n.
  rewrite broadcast1_ok by congruence. cbn [Py.bind].
  rewrite broadcast1_ok by (cbn; congruence).
  eexists. split; [reflexivity|]. split; [reflexivity|].
  intros d Hd. cbn [at1 len]. rewrite Hm, Hs, !(bidx_in _ d Hd). reflexivity.
Qed.

Lemma linearize_gradr_ok (e : Engine) (v : arr1) :
  holds_training_set e -> len (thetas e) = n_dims e -> len v = n_dims e ->
  (1 <= n_samples e)%nat ->
  exists r g,
    linearize_r e v = Ok r /\ linearize_gradr e v r = Ok g /\
    len r = n_samples e /\
    (nrows g = n_dims e /\ ncols g = n_samples e) /\
    (forall i, (i < n_samples e)%nat ->
       at1 r i = gauss_corr (thetas e) v (row (X e) i)) /\
    (forall d i, (d < n_dims e)%nat -> (i < n_samples e)%nat ->
       at2 g d i =
       at1 r i * -2 * (at1 (thetas e) d * (at1 v d - at2 (X e) i d))).
Proof.
  intros [HX HD] Hth Hv Hn. unfold linearize_r, linearize_gradr.
  rewrite (broadcast2_ok Rminus _ _ (n_samples e) (n_dims e))
    by (cbn [as_row nrows ncols]; rewrite ?HX, ?HD, ?Hv;
        auto using bdim_one_l, bdim_same).
  cbn [Py.bind].
  rewrite dot_12_ok by (cbn; congruence). cbn [Py.bind].
  rewrite einsum_i_ij_ok by (cbn; congruence). cbn [Py.bind].
  eexists. eexists. split; [reflexivity|].
  rewrite (broadcast2_ok Rmult _ _ (n_dims e) (n_samples e))
    by (cbn [as_row map1 map2 transpose scale_rows elementwise2 nrows ncols len];
        auto using bdim_one_l, bdim_same).
  split; [reflexivity|].
  cbn [map1 map2 transpose scale_rows elementwise2 as_row nrows ncols len
       at1 at2].
  split; [reflexivity|]. split; [split; reflexivity|].
  split.
  - intros i Hi. unfold gauss_corr. f_equal. f_equal.
    apply rsum_ext. intros d Hd. cbn [row at1].
    rewrite HX, HD, Hv, (bidx_in _ i Hi).
    rewrite (bidx_in (n_dims e) d) by lia. unfold Rsqr. ring.
  - intros d i Hd Hi.
    rewrite HX, HD, Hv, !(bidx_in _ i Hi), !(bidx_in _ d Hd).
    cbn [bidx Nat.eqb]. reflexivity.
Qed.

(** C2. On a fitted instance [linearize] normalises the query, computes
    the correlation vector and its gradient, and then multiplies the
    gradient with [alpha], which [train] never assigns: the product of an
    [n_dims] by [n_samples] array with the empty array raises, so no
    Jacobian is returned. *)
Theorem linearize_raises (e : Engine) (n_out : nat) (q : arr1) :
  trained_engine e n_out -> len q = n_dims e ->
  linearize e q = Raise dot_error.
Proof.
  intros (_ & Hn & Hts & _ & Hth & [HXm HXs] & _ & _ & _ & _ & _ & Hal) Hq.
  unfold linearize.
  destruct (linearize_x_n_ok e q) as (v & Hv & Hlv & _); try congruence.
  rewrite Hv. cbn [Py.bind].
  destruct (linearize_gradr_ok e v Hts Hth) as (r & g & Hr & Hg & _ & [_ Hgc] & _);
    [congruence | lia |].
  rewrite Hr. cbn [Py.bind]. rewrite Hg. cbn [Py.bind].
  rewrite Hal. unfold dot_2n, dot_21. rewrite Hgc. cbn [zeros1 len].
  destruct (Nat.eqb_spec (n_samples e) 0) as [E|_]; [lia|]. reflexivity.
Qed.

Lemma linearize_raises_witness :
  linearize two_point_engine (of_list [0.25]) = Raise dot_error.
Proof.
  apply (linearize_raises two_point_engine 1 (of_list [0.25])).
  - repeat split; try reflexivity; simpl; lia.
  - reflexivity.
Defined.

(** What [linearize] returns once [alpha] holds one weight per sample and
    response. *)
Lemma linearize_with_weights (e : Engine) (n_out : nat) (q : arr1) (a : arr2) :
  holds_training_set e -> (1 <= n_samples e)%nat ->
  len (thetas e) = n_dims e ->
  len (X_mean e) = n_dims e -> len (X_std e) = n_dims e ->
  len (Y_std e) = n_out ->
  alpha e = Arr2 a -> nrows a = n_samples e -> ncols a = n_out ->
  len q = n_dims e ->
  exists v jac,
    linearize_x_n e q = Ok v /\
    (forall d, (d < n_dims e)%nat ->
       at1 v d = (at1 q d - at1 (X_mean e) d) / at1 (X_std e) d) /\
    linearize e q = Ok jac /\
    (nrows jac = n_out /\ ncols jac = n_dims e) /\
    forall o d, (o < n_out)%nat -> (d < n_dims e)%nat ->
      at2 jac o d =
      at1 (Y_std e) o * (1 / at1 (X_std e) d) *
      rsum (n_samples e)
        (fun i => gauss_corr (thetas e) v (row (X e) i) * -2
                  * (at1 (thetas e) d * (at1 v d - at2 (X e) i d))
                  * at2 a i o).
Proof.
  intros Hts Hn Hth HXm HXs HYs Hal Har Hac Hq.
  destruct (linearize_x_n_ok e q) as (v & Hv & Hlv & Hvd); try congruence.
  destruct (linearize_gradr_ok e v Hts Hth)
    as (r & g & Hr & Hg & Hlr & [Hgr Hgc] & Hrat & Hgat); [congruence | lia |].
  exists v. eexists. split; [exact Hv|].
  split; [intros d Hd; apply Hvd; lia|].
  unfold linearize. rewrite Hv. cbn [Py.bind]. rewrite Hr. cbn [Py.bind].
  rewrite Hg. cbn [Py.bind]. rewrite Hal. unfold dot_2n.
  rewrite dot_22_ok by congruence. cbn [Py.bind nd_T].
  unfold einsum_i_j_ij. cbn [transpose matmul nrows ncols map1 len].
  rewrite Hac, HYs, HXs, Hgr, !Nat.eqb_refl. cbn [andb].
  split; [reflexivity|]. cbn [nrows ncols at2 at1].
  split; [split; reflexivity|].
  intros o d Ho Hd. cbn [map1 at1 transpose matmul at2]. f_equal. rewrite Hgc.
  apply rsum_ext. intros i Hi. rewrite Hgat, Hrat by assumption. reflexivity.
Qed.

(** C10. [linearize] has no [normalize] flag and always normalises the
    query with the stored [X_mean] and [X_std]; [train] stores these
    statistics also when it is called with [normalize] false, so the
    normalised query is then measured against training data that was
    stored raw. *)
Theorem linearize_always_normalizes (svd : svd_t) (minimize : minimize_t)
  (x y : ndarray) (w : world) (q : arr1) :
  (2 <= nrows (atleast_2d x))%nat ->
  len q = ncols (atleast_2d x) ->
  let x2 := atleast_2d x in
  let e' := self (snd (train svd minimize x y false w)) in
  (X e' = x2 /\ Y e' = atleast_2d y) /\
  (X_mean e' = mean0 x2 /\ X_std e' = clamp_zero (std0 x2)) /\
  (Y_mean e' = mean0 (atleast_2d y) /\
   Y_std e' = clamp_zero (std0 (atleast_2d y))) /\
  exists v,
    linearize_x_n e' q = Ok v /\ len v = len q /\
    (forall d, (d < ncols x2)%nat ->
       at1 v d = (at1 q d - at1 (mean0 x2) d) / at1 (clamp_zero (std0 x2)) d) /\
    linearize e' q =
      (r <- linearize_r e' v ;;
       gradr <- linearize_gradr e' v r ;;
       g <- dot_2n gradr (alpha e') ;;
       einsum_i_j_ij (Y_std e') (map1 (fun s => 1 / s) (X_std e')) (nd_T g)).
Proof.
  intros Hn Hq x2 e'.
  destruct (train_keeps_prepared svd minimize x y false w Hn)
    as ([HX HY] & [HXm HXs] & [HYm HYs] & _).
  fold e' x2 in HX, HY, HXm, HXs, HYm, HYs.
  cbn [prepared X Y X_mean X_std Y_mean Y_std set_X set_Y set_X_stats
       set_Y_stats] in HX, HY, HXm, HXs, HYm, HYs.
  split; [auto|]. split; [auto|]. split; [auto|].
  destruct (linearize_x_n_ok e' q) as (v & Hv & Hlv & Hvd).
  { rewrite HXm. symmetry. exact Hq. }
  { rewrite HXs. symmetry. exact Hq. }
  exists v. split; [exact Hv|]. split; [exact Hlv|]. split.
  - intros d Hd. rewrite Hvd by (rewrite Hq; exact Hd).
    rewrite HXm, HXs. reflexivity.
  - unfold linearize. rewrite Hv. reflexivity.
Qed.

Lemma linearize_always_normalizes_witness :
  X (self (snd (train unit_factors stay_at_start (Arr2 (of_rows [[0]; [5]]))
                  (Arr2 (of_rows [[1]; [1]])) false fresh_world)))
  = of_rows [[0]; [5]] /\
  exists v,
    linearize_x_n
      (self (snd (train unit_factors stay_at_start (Arr2 (of_rows [[0]; [5]]))
                    (Arr2 (of_rows [[1]; [1]])) false fresh_world)))
      (of_list [2]) = Ok v.
Proof.
  destruct (linearize_always_normalizes unit_factors stay_at_start
              (Arr2 (of_rows [[0]; [5]])) (Arr2 (of_rows [[1]; [1]]))
              fresh_world (of_list [2]))
    as ([HX _] & _ & _ & v & Hv & _).
  - simpl. lia.
  - reflexivity.
  - split; [exact HX|]. exists v. exact Hv.
Defined.

(** C3. [FloatKrigingSurrogate.predict] indexes the array of means that
    the full predictor returns with [0]: it returns the means of the first
    query point only, not the mean component for the whole input. *)
Theorem float_predict_first_row (e : Engine) (n_out : nat) (x : typed) :
  trained_engine e n_out -> ncols (atleast_2d (values x)) = n_dims e ->
  (1 <= nrows (atleast_2d (values x)))%nat ->
  let x2 := atleast_2d (values x) in
  let x_n := query_points e x2 true in
  let r := fun k i =>
             astype (dtype_of x)
               (gauss_corr (thetas e) (row x_n k) (row (X e) i)) in
  exists mu_ c y,
    (mu e = Some mu_ /\ c_r e = Some c) /\
    predict e x false true = Ok (PMean y) /\
    (nrows y = nrows x2 /\ ncols y = n_out) /\
    (forall k o, (k < nrows x2)%nat -> (o < n_out)%nat ->
       at2 y k o =
       at2 mu_ 0 o + rsum (n_samples e) (fun i => r k i * at2 c i o)) /\
    FloatKrigingSurrogate_predict e x = Ok (Arr1 (row y 0)).
Proof.
  intros Htr Hx Hn x2 x_n r.
  destruct (predict_mean_ok e n_out x true Htr Hx)
    as (mu_ & c & y & Hattr & Hrun & [Hyr Hyc] & Hy).
  exists mu_, c, y. repeat (split; [assumption|]).
  split; [split; assumption|]. split; [exact Hy|].
  unfold FloatKrigingSurrogate_predict. rewrite Hrun. cbn [Py.bind item0].
  unfold getrow. rewrite Hyr.
  replace (0 <? nrows (atleast_2d (values x)))%nat with true
    by (symmetry; apply Nat.ltb_lt; lia).
  reflexivity.
Qed.

Lemma float_predict_first_row_witness :
  exists y v,
    predict two_point_engine (float_array (Arr2 (of_rows [[0]; [1]]))) false
      true = Ok (PMean y) /\
    FloatKrigingSurrogate_predict two_point_engine
      (float_array (Arr2 (of_rows [[0]; [1]]))) = Ok (Arr1 v) /\
    nrows y = 2%nat /\ len v = 1%nat /\
    at1 v 0 = at2 y 0 0 /\ at2 y 1 0 <> at1 v 0.
Proof.
  destruct (float_predict_first_row two_point_engine 1
              (float_array (Arr2 (of_rows [[0]; [1]]))))
    as (mu_ & c & y & [Emu Ec] & Hrun & [Hyr Hyc] & Hy & Hfl).
  - repeat split; try reflexivity; simpl; lia.
  - reflexivity.
  - simpl. lia.
  - exists y, (row y 0).
    split; [exact Hrun|]. split; [exact Hfl|]. split; [exact Hyr|].
    split; [exact Hyc|]. split; [reflexivity|].
    cbn [row at1].
    rewrite (Hy 1%nat 0%nat), (Hy 0%nat 0%nat) by (simpl; lia).
    injection Emu as <-. injection Ec as <-.
    unfold gauss_corr. cbn.
    repeat match goal with
           | |- context [exp ?a] =>
               first [ progress (replace a with (-4) by lra)
                     | progress (replace a with 0 by lra) ]
           end.
    rewrite exp_0.
    assert (H4 : exp (-4) < 1)
      by (rewrite <- exp_0; apply exp_increasing; lra).
    lra.
Defined.

(** ** Further properties of training, prediction and the Jacobian *)

(** X1. When the optimizer reports failure, [train] raises a [ValueError]
    that carries the optimizer's message after a single optimizer call and
    no output.  The new training data and statistics are already stored,
    while [thetas] and the seven attributes of the correlation model keep
    the values they had before the call. *)
Theorem train_optimizer_failure (svd : svd_t) (minimize : minimize_t)
  (x y : ndarray) (normalize : bool) (w : world) (opt : OptimizeResult) :
  let x2 := atleast_2d x in
  let y2 := atleast_2d y in
  let e0 := prepared x2 y2 normalize (self w) in
  let x0 := start_point (ncols x2) in
  let bounds := repeat (-3.0, 2.0) (ncols x2) in
  (2 <= nrows x2)%nat ->
  minimize (_calcll svd e0) x0 "slsqp"%string 1e-3 bounds = Ok opt ->
  success opt = false ->
  train svd minimize x y normalize w =
    (Raise (ValueError
              ("Kriging Hyper-parameter optimization failed: "
                 ++ message opt)%string),
     mkWorld e0 (events w ++ [CallMinimize x0 bounds])) /\
  thetas e0 = thetas (self w) /\
  (c_r e0 = c_r (self w) /\ U e0 = U (self w) /\ S_inv e0 = S_inv (self w) /\
   Vh e0 = Vh (self w) /\ mu e0 = mu (self w) /\
   SigmaSqr e0 = SigmaSqr (self w) /\ R_inv e0 = R_inv (self w)) /\
  (n_samples e0 = nrows x2 /\ n_dims e0 = ncols x2 /\
   X_mean e0 = mean0 x2 /\ X_std e0 = clamp_zero (std0 x2) /\
   X e0 = if normalize then normalized x2 else x2).
Proof.
  intros x2 y2 e0 x0 bounds Hn Hmin Hfail.
  split.
  - rewrite train_run. cbv zeta. fold x2 y2 e0 x0 bounds.
    replace (nrows x2 <=? 1)%nat with false
      by (symmetry; apply Nat.leb_gt; lia).
    rewrite Hmin, Hfail. reflexivity.
  - unfold e0. destruct normalize; cbn; repeat split; reflexivity.
Qed.

Lemma train_optimizer_failure_witness :
  fst (train unit_factors fail_at_start (Arr2 (of_rows [[0]; [5]]))
         (Arr2 (of_rows [[1]; [1]])) true fresh_world)
  = Raise (ValueError
             "Kriging Hyper-parameter optimization failed: Iteration limit exceeded"%string).
Proof.
  destruct (train_optimizer_failure unit_factors fail_at_start
              (Arr2 (of_rows [[0]; [5]])) (Arr2 (of_rows [[1]; [1]])) true
              fresh_world
              (mkOptimizeResult false
                 (mk1 (nrows (start_point 1))
                    (fun i => at2 (start_point 1) i O))
                 "Iteration limit exceeded"%string)) as [H _].
  - simpl. lia.
  - reflexivity.
  - reflexivity.
  - rewrite H. reflexivity.
Defined.

Lemma Rpower_10_pos (t : R) : 0 < Rpower 10 t.
Proof. unfold Rpower. apply exp_pos. Qed.

(** X2. Whenever the optimizer reports success, the [thetas] that [train]
    stores are [10**x] of the optimizer's result and are strictly positive
    in every dimension, whether or not the final evaluation succeeds. *)
Theorem train_thetas_positive (svd : svd_t) (minimize : minimize_t)
  (x y : ndarray) (normalize : bool) (w : world) (opt : OptimizeResult) :
  let x2 := atleast_2d x in
  let e0 := prepared x2 (atleast_2d y) normalize (self w) in
  (2 <= nrows x2)%nat ->
  minimize (_calcll svd e0) (start_point (ncols x2)) "slsqp"%string 1e-3
    (repeat (-3.0, 2.0) (ncols x2)) = Ok opt ->
  success opt = true ->
  let e' := self (snd (train svd minimize x y normalize w)) in
  len (thetas e') = len (opt_x opt) /\
  forall d, at1 (thetas e') d = Rpower 10 (at1 (opt_x opt) d) /\
            0 < at1 (thetas e') d.
Proof.
  intros x2 e0 Hn Hmin Hsucc e'. unfold e'.
  rewrite train_run. cbv zeta. fold x2 e0.
  replace (nrows x2 <=? 1)%nat with false
    by (symmetry; apply Nat.leb_gt; lia).
  rewrite Hmin, Hsucc. cbn [negb].
  destruct (_calculate_reduced_likelihood_params _ _ _) as [lp|ex];
    cbn; (split; [reflexivity|]); intros d;
    (split; [reflexivity | apply Rpower_10_pos]).
Qed.

Lemma train_thetas_positive_witness :
  0 < at1 (thetas (self (snd (train unit_factors stay_at_start
                                (Arr2 (of_rows [[0]; [5]]))
                                (Arr2 (of_rows [[1]; [1]])) true
                                fresh_world)))) 0.
Proof.
  destruct (train_thetas_positive unit_factors stay_at_start
              (Arr2 (of_rows [[0]; [5]])) (Arr2 (of_rows [[1]; [1]])) true
              fresh_world
              (mkOptimizeResult true
                 (mk1 (nrows (start_point 1))
                    (fun i => at2 (start_point 1) i O))
                 "Optimization terminated successfully."%string))
    as [_ H].
  - simpl. lia.
  - reflexivity.
  - reflexivity.
  - apply H.
Defined.

Lemma calc_mismatched_rows (svd : svd_t) (e : Engine) (targ : option arr1) :
  holds_training_set e -> (1 <= n_samples e)%nat ->
  len (match targ with None => thetas e | Some t => t end) = n_dims e ->
  nugget_fits (nugget e) (n_samples e) = true ->
  svd_shapes svd (n_samples e) ->
  nrows (Y e) <> n_samples e ->
  _calculate_reduced_likelihood_params svd e targ = Raise dot_error.
Proof.
  intros Hts Hn Hth Hfit Hsvd HY.
  unfold _calculate_reduced_likelihood_params.
  destruct (correlation_matrix_ok e _ Hts Hth Hfit) as (Rm & HR & Hr & Hc & _).
  rewrite HR. cbn [Py.bind].
  specialize (Hsvd Rm Hr Hc).
  destruct (svd Rm) as [[Uf Sf] Vf].
  destruct Hsvd as ([HU1 HU2] & HS & [HV1 HV2]).
  unfold index1. replace (0 <? len Sf)%nat with true
    by (symmetry; apply Nat.ltb_lt; lia).
  cbn [Py.bind].
  rewrite einsum_i_ij_ok by (cbn; congruence). cbn [Py.bind].
  rewrite dot_22_ok by (cbn; congruence). cbn [Py.bind].
  unfold dot_22 at 1.
  cbn [matmul transpose scale_rows nrows ncols].
  rewrite HU1.
  destruct (Nat.eqb_spec (n_samples e) (nrows (Y e))) as [E|_];
    [symmetry in E; contradiction | reflexivity].
Qed.

(** X3. [train] does not compare the number of output rows with the
    number of input rows.  The mismatch surfaces as the shape error of
    [np.dot(R_inv, Y)] in the objective, so an optimizer that evaluates its
    objective at the initial guess lets it through: [train] raises it after
    the new training data and statistics are stored, and [thetas] and the
    attributes of the correlation model keep their previous values. *)
Theorem train_mismatched_outputs (svd : svd_t) (minimize : minimize_t)
  (x y : ndarray) (normalize : bool) (w : world) :
  let x2 := atleast_2d x in
  let y2 := atleast_2d y in
  let e0 := prepared x2 y2 normalize (self w) in
  let x0 := start_point (ncols x2) in
  let bounds := repeat (-3.0, 2.0) (ncols x2) in
  (2 <= nrows x2)%nat ->
  nrows y2 <> nrows x2 ->
  nugget_fits (nugget (self w)) (nrows x2) = true ->
  svd_shapes svd (nrows x2) ->
  evaluates_objective minimize ->
  train svd minimize x y normalize w =
    (Raise dot_error, mkWorld e0 (events w ++ [CallMinimize x0 bounds])) /\
  thetas e0 = thetas (self w) /\
  (c_r e0 = c_r (self w) /\ mu e0 = mu (self w) /\
   SigmaSqr e0 = SigmaSqr (self w) /\ R_inv e0 = R_inv (self w)) /\
  (X_mean e0 = mean0 x2 /\ Y_mean e0 = mean0 y2).
Proof.
  intros x2 y2 e0 x0 bounds Hn Hy Hfit Hsvd Hmin.
  destruct (prepared_shapes x2 y2 normalize (self w))
    as ([Hns Hnd] & [HXr HXc] & [HYr HYc] & _ & _ & _ & _ & Hnug).
  fold e0 in Hns, Hnd, HXr, HXc, HYr, HYc, Hnug.
  assert (Hobj : _calcll svd e0 (flatten x0) = Raise dot_error).
  { unfold _calcll.
    rewrite calc_mismatched_rows; [reflexivity | | | | | |].
    - split; congruence.
    - lia.
    - cbn [map1 len flatten x0 start_point elementwise2 nrows ncols].
      rewrite Nat.mul_1_r. congruence.
    - rewrite Hnug, Hns. assumption.
    - rewrite Hns. assumption.
    - congruence. }
  split.
  - rewrite train_run. cbv zeta. fold x2 y2 e0 x0 bounds.
    replace (nrows x2 <=? 1)%nat with false
      by (symmetry; apply Nat.leb_gt; lia).
    rewrite (Hmin _ _ _ _ _ _ Hobj). reflexivity.
  - unfold e0. destruct normalize; cbn; repeat split; reflexivity.
Qed.

Lemma train_mismatched_outputs_witness :
  fst (train unit_factors probing_optimizer (Arr2 (of_rows [[0]; [5]]))
         (Arr2 (of_rows [[1]; [1]; [2]])) true fresh_world)
  = Raise dot_error.
Proof.
  destruct (train_mismatched_outputs unit_factors probing_optimizer
              (Arr2 (of_rows [[0]; [5]])) (Arr2 (of_rows [[1]; [1]; [2]]))
              true fresh_world) as [H _].
  - simpl. lia.
  - simpl. lia.
  - reflexivity.
  - intros Rm Hr Hc. simpl. auto.
  - intros f x0 m eps b ex Hf. unfold probing_optimizer. rewrite Hf.
    reflexivity.
  - rewrite H. reflexivity.
Defined.

(** X4. On every training set it accepts, [train] calls the optimizer
    exactly once, before any output, with one bound [(-3, 2)] per input
    dimension and the initial guess [-0.5] in every dimension, which lies
    within the bounds. *)
Theorem train_optimizer_called_once (svd : svd_t) (minimize : minimize_t)
  (x y : ndarray) (normalize : bool) (w : world) :
  let nd := ncols (atleast_2d x) in
  let x0 := start_point nd in
  let bounds := repeat (-3.0, 2.0) nd in
  (2 <= nrows (atleast_2d x))%nat ->
  (exists tail,
     events (snd (train svd minimize x y normalize w))
     = (events w ++ CallMinimize x0 bounds :: tail)%list /\
     forall ev, In ev tail -> exists v, ev = Print v) /\
  (nrows x0 = nd /\ ncols x0 = 1%nat) /\
  List.length bounds = nd /\
  forall d, at2 x0 d 0 = -0.5 /\
            forall b, In b bounds -> fst b <= at2 x0 d 0 <= snd b.
Proof.
  intros nd x0 bounds Hn. split; [|split; [|split]].
  - rewrite train_run. cbv zeta. fold nd x0 bounds.
    replace (nrows (atleast_2d x) <=? 1)%nat with false
      by (symmetry; apply Nat.leb_gt; lia).
    destruct (minimize _ _ _ _ _) as [opt|ex];
      [destruct (success opt); cbn [negb];
       [destruct (_calculate_reduced_likelihood_params _ _ _) as [lp|ex]|]|];
      cbn [snd events].
    + eexists. split; [rewrite <- app_assoc; reflexivity|].
      intros ev Hin. cbn in Hin.
      repeat (destruct Hin as [<-|Hin]; [eexists; reflexivity|]).
      contradiction.
    + exists []. split; [reflexivity | intros ev []].
    + exists []. split; [reflexivity | intros ev []].
    + exists []. split; [reflexivity | intros ev []].
  - split; reflexivity.
  - apply repeat_length.
  - intros d.
    assert (E : at2 x0 d 0 = -0.5) by (cbn; lra).
    split; [exact E|]. intros b Hb. apply repeat_spec in Hb. subst b.
    rewrite E. cbn [fst snd]. lra.
Qed.

Lemma train_optimizer_called_once_witness :
  exists tail,
    events (snd (train unit_factors stay_at_start
                   (Arr2 (of_rows [[0]; [5]])) (Arr2 (of_rows [[1]; [1]]))
                   true fresh_world))
    = CallMinimize (start_point 1) (repeat (-3.0, 2.0) 1) :: tail.
Proof.
  destruct (train_optimizer_called_once unit_factors stay_at_start
              (Arr2 (of_rows [[0]; [5]])) (Arr2 (of_rows [[1]; [1]]))
              true fresh_world) as [(tail & H & _) _].
  - simpl. lia.
  - exists tail. exact H.
Defined.

(** X5. A scalar or one-dimensional training input is one sample after
    [np.atleast_2d], so [train] rejects it with the too-few-points error
    whatever its length, leaving [n_samples] at 1. *)
Theorem train_rejects_flat_input (svd : svd_t) (minimize : minimize_t)
  (x y : ndarray) (normalize : bool) (w : world) :
  (forall m, x <> Arr2 m) ->
  fst (train svd minimize x y normalize w) =
    Raise (ValueError
             "KrigingSurrogate require at least 2 training points."%string) /\
  n_samples (self (snd (train svd minimize x y normalize w))) = 1%nat.
Proof.
  intros Hx. rewrite train_run. cbv zeta.
  destruct x as [s|v|m]; [| |exfalso; apply (Hx m); reflexivity];
    cbn; split; reflexivity.
Qed.

Lemma train_rejects_flat_input_witness :
  fst (train unit_factors stay_at_start (Arr1 (of_list [0; 1; 2; 3]))
         (Arr1 (of_list [0; 1; 4; 9])) true fresh_world) =
    Raise (ValueError
             "KrigingSurrogate require at least 2 training points."%string).
Proof.
  apply (train_rejects_flat_input unit_factors stay_at_start
           (Arr1 (of_list [0; 1; 2; 3])) (Arr1 (of_list [0; 1; 4; 9])) true
           fresh_world).
  intros m H. discriminate H.
Defined.

(** X6. For non-negative length scales every off-diagonal entry of the
    correlation matrix lies in (0, 1]; two training points that coincide
    have correlation exactly 1 while the diagonal stays [1 + nugget]. *)
Theorem correlation_matrix_bounds (e : Engine) (th : arr1) :
  holds_training_set e ->
  len th = n_dims e ->
  nugget_fits (nugget e) (n_samples e) = true ->
  (forall d, (d < n_dims e)%nat -> 0 <= at1 th d) ->
  exists Rm,
    correlation_matrix e th = Ok Rm /\
    (forall i j, (i < n_samples e)%nat -> (j < n_samples e)%nat -> i <> j ->
       0 < at2 Rm i j <= 1) /\
    (forall i j, (i < n_samples e)%nat -> (j < n_samples e)%nat -> i <> j ->
       (forall d, (d < n_dims e)%nat -> at2 (X e) i d = at2 (X e) j d) ->
       at2 Rm i j = 1 /\ at2 Rm i i = 1 + nugget_entry (nugget e) i).
Proof.
  intros Hts Hth Hfit Hpos.
  destruct (correlation_matrix_ok e th Hts Hth Hfit)
    as (Rm & HR & _ & _ & Hoff & Hdiag & _).
  exists Rm. split; [exact HR|]. split.
  - intros i j Hi Hj Hij. rewrite Hoff by assumption.
    apply gauss_corr_bounds. intros d Hd. apply Hpos. congruence.
  - intros i j Hi Hj Hij Hdup. split; [|apply Hdiag; assumption].
    rewrite Hoff by assumption. apply gauss_corr_same.
    intros d Hd. cbn [row at1]. apply Hdup. congruence.
Qed.

Lemma correlation_matrix_bounds_witness :
  exists Rm,
    correlation_matrix duplicate_engine (of_list [1]) = Ok Rm /\
    at2 Rm 0 1 = 1 /\ at2 Rm 0 0 = 1 + 10 * MACHINE_EPSILON.
Proof.
  destruct (correlation_matrix_bounds duplicate_engine (of_list [1]))
    as (Rm & HR & _ & Hdup).
  - split; reflexivity.
  - reflexivity.
  - reflexivity.
  - intros d Hd. simpl. destruct d; [lra | simpl in Hd; lia].
  - exists Rm. split; [exact HR|].
    apply (Hdup 0%nat 1%nat); simpl; try lia.
    intros d Hd. destruct d; [reflexivity | lia].
Defined.

Lemma rsum_plus (n : nat) (f g : nat -> R) :
  rsum n (fun k => f k + g k) = rsum n f + rsum n g.
Proof. induction n as [|n IH]; simpl; [ring | rewrite IH; ring]. Qed.

Lemma rsum_scal_r (n : nat) (f : nat -> R) (c : R) :
  rsum n (fun k => f k * c) = rsum n f * c.
Proof. induction n as [|n IH]; simpl; [ring | rewrite IH; ring]. Qed.

(** X7. The residual weights [c_r] that the evaluator returns sum to zero
    over the samples, for every response, whenever [1^T R_inv 1] is not
    zero. *)
Theorem residual_weights_sum_to_zero (svd : svd_t) (e : Engine)
  (targ : option arr1) (n_out : nat) (lik : arr2) (p : Params) :
  holds_training_set e ->
  (1 <= n_samples e)%nat ->
  nrows (Y e) = n_samples e -> ncols (Y e) = n_out ->
  len (match targ with None => thetas e | Some t => t end) = n_dims e ->
  nugget_fits (nugget e) (n_samples e) = true ->
  svd_shapes svd (n_samples e) ->
  _calculate_reduced_likelihood_params svd e targ = Ok (lik, p) ->
  rsum (n_samples e)
    (fun i => rsum (n_samples e) (fun j => at2 (p_R_inv p) i j)) <> 0 ->
  forall o, (o < n_out)%nat ->
    rsum (n_samples e) (fun i => at2 (p_c_r p) i o) = 0.
Proof.
  intros Hts Hn HY HYc Hth Hfit Hsvd Hrun Hden o Ho.
  destruct (calc_ok svd e targ n_out Hts Hn HY HYc Hth Hfit Hsvd)
    as (Rm & U & S & Vh & inv & Ri & mu & resid & c & s2 & HR & Hs
        & ([HU1 HU2] & HS & [HV1 HV2]) & Einv & ERi & Emu & Eres & Ec & Es2
        & Hcalc).
  rewrite Hcalc in Hrun. injection Hrun as _ <-.
  cbn [p_R_inv p_c_r] in *.
  assert (HRc : ncols Ri = n_samples e) by (rewrite ERi; cbn; exact HU1).
  set (num := rsum (n_samples e)
                (fun i => rsum (n_samples e)
                            (fun j => at2 Ri i j * at2 (Y e) j o))).
  set (den := rsum (n_samples e)
                (fun i => rsum (n_samples e) (fun j => at2 Ri i j))) in *.
  assert (Hmu : at2 mu 0 o = num / den).
  { rewrite Emu.
    cbn [elementwise2 at2 matmul transpose ones2 nrows ncols].
    rewrite HYc, (bidx_in n_out o Ho). cbn [bidx Nat.eqb].
    rewrite HRc. f_equal.
    - apply rsum_ext. intros i _. ring.
    - apply rsum_ext. intros i _. rewrite Rmult_1_l.
      apply rsum_ext. intros j _. ring. }
  assert (Hc : forall i, (i < n_samples e)%nat ->
            at2 c i o =
            rsum (n_samples e) (fun j => at2 Ri i j * at2 (Y e) j o)
            + rsum (n_samples e) (fun j => at2 Ri i j) * - (num / den)).
  { intros i Hi. rewrite Ec. cbn [matmul at2]. rewrite HRc.
    rewrite <- rsum_scal_r, <- rsum_plus.
    apply rsum_ext. intros j Hj. rewrite Eres.
    cbn [elementwise2 at2 ones2 nrows ncols].
    replace (nrows mu) with 1%nat by (rewrite Emu; reflexivity).
    replace (ncols mu) with n_out by (rewrite Emu; reflexivity).
    rewrite HY, HYc, !(bidx_in n_out o Ho), !(bidx_in _ j Hj).
    cbn [bidx Nat.eqb]. rewrite Hmu. ring. }
  rewrite (rsum_ext _ _ _ Hc), rsum_plus, rsum_scal_r.
  fold num den. field. exact Hden.
Qed.

Lemma residual_weights_sum_to_zero_witness :
  exists lik p,
    _calculate_reduced_likelihood_params identity_factors two_point_engine
      None = Ok (lik, p) /\
    rsum 2 (fun i => at2 (p_c_r p) i 0) = 0.
Proof.
  destruct (calc_ok identity_factors two_point_engine None 1)
    as (Rm & U & S & Vh & inv & Ri & mu & resid & c & s2 & HR & Hs
        & ([HU1 HU2] & HS & [HV1 HV2]) & Einv & ERi & Emu & Eres & Ec & Es2
        & Hcalc).
  - split; reflexivity.
  - simpl. lia.
  - reflexivity.
  - reflexivity.
  - reflexivity.
  - reflexivity.
  - intros M Hr Hc. simpl. auto.
  - eexists. eexists. split; [exact Hcalc|].
    match type of Hcalc with
    | _ = Ok (?l, ?q) =>
        apply (residual_weights_sum_to_zero identity_factors two_point_engine
                 None 1 l q)
    end.
    + split; reflexivity.
    + simpl. lia.
    + reflexivity.
    + reflexivity.
    + reflexivity.
    + reflexivity.
    + intros M Hr Hc. simpl. auto.
    + exact Hcalc.
    + cbn [p_R_inv]. rewrite ERi, Einv.
      unfold identity_factors in Hs. injection Hs as <- <- <-.
      cbn [nrows ncols] in HU1. simpl in HU1.
      cbn [matmul transpose scale_rows map1 at1 at2 nrows ncols].
      rewrite HU1. simpl.
      assert (0 < 1 / (1 * (1 * 1) + 1e-8 * 1 * (1e-8 * 1 * 1)))
        by (apply Rdiv_lt_0_compat; lra).
      lra.
    + simpl. lia.
Defined.

Lemma query_points_at (e : Engine) (x2 : arr2) (nm : bool) (k d : nat) :
  len (X_mean e) = ncols x2 -> len (X_std e) = ncols x2 ->
  (k < nrows x2)%nat -> (d < ncols x2)%nat ->
  at2 (query_points e x2 nm) k d =
    if nm then (at2 x2 k d - at1 (X_mean e) d) / at1 (X_std e) d
    else at2 x2 k d.
Proof.
  intros Hm Hs Hk Hd. destruct nm; [|reflexivity].
  cbn [query_points elementwise2 at2 as_row nrows ncols].
  rewrite Hm, Hs, !(bidx_in _ k Hk), !(bidx_in _ d Hd). reflexivity.
Qed.

(** X8. Predicting a batch gives, in row [k], the mean that predicting
    the [k]-th point alone gives. *)
Theorem predict_batch_rows (e : Engine) (n_out : nat) (dt : dtype)
  (m : arr2) (normalize : bool) (k : nat) :
  trained_engine e n_out -> ncols m = n_dims e -> (k < nrows m)%nat ->
  exists yb ys,
    predict e (mk_typed dt (Arr2 m)) false normalize = Ok (PMean yb) /\
    predict e (mk_typed dt (Arr1 (row m k))) false normalize
      = Ok (PMean ys) /\
    (nrows yb = nrows m /\ nrows ys = 1%nat) /\
    forall o, (o < n_out)%nat -> at2 ys 0 o = at2 yb k o.
Proof.
  intros Htr Hm Hk.
  destruct (predict_mean_ok e n_out (mk_typed dt (Arr2 m)) normalize Htr Hm)
    as (mu_ & c & yb & [Emu Ec] & Hb & [Hbr _] & Hyb).
  destruct (predict_mean_ok e n_out (mk_typed dt (Arr1 (row m k))) normalize
              Htr Hm)
    as (mu' & c' & ys & [Emu' Ec'] & Hs & [Hsr _] & Hys).
  rewrite Emu in Emu'. rewrite Ec in Ec'.
  injection Emu' as <-. injection Ec' as <-.
  exists yb, ys. split; [exact Hb|]. split; [exact Hs|].
  split; [split; assumption|].
  intros o Ho. cbn [atleast_2d as_row nrows values dtype_of] in Hys, Hyb.
  rewrite Hys, Hyb by (auto; lia). f_equal.
  apply rsum_ext. intros i Hi. f_equal. f_equal.
  destruct Htr as (_ & _ & _ & _ & Hth & [HXm HXs] & _).
  apply gauss_corr_ext. intros d Hd. cbn [row at1].
  rewrite !query_points_at
    by (cbn [as_row row nrows ncols len]; try congruence; lia).
  reflexivity.
Qed.

Lemma predict_batch_rows_witness :
  exists yb ys,
    predict two_point_engine (int_array (Arr2 (of_rows [[0]; [1]]))) false
      true = Ok (PMean yb) /\
    predict two_point_engine (int_array (Arr1 (of_list [1]))) false true
      = Ok (PMean ys) /\
    at2 ys 0 0 = at2 yb 1 0.
Proof.
  destruct (predict_batch_rows two_point_engine 1 int64 (of_rows [[0]; [1]])
              true 1)
    as (yb & ys & Hb & Hs & _ & Heq).
  - repeat split; try reflexivity; simpl; lia.
  - reflexivity.
  - simpl. lia.
  - exists yb, ys. split; [exact Hb|]. split; [|apply Heq; lia].
    rewrite <- Hs. unfold predict. reflexivity.
Defined.

(** X9. For a single response and a batch of [m] query points, [predict]
    with [eval_rmse] true returns an [m] by [m] array of RMSE values: entry
    [(k, l)] pairs the correlation vectors of points [k] and [l] in
    [r_k^T R_inv r_l], and the diagonal holds the per-point values. *)
Theorem predict_rmse_batch (e : Engine) (x : typed) (normalize : bool) :
  trained_engine e 1 -> ncols (atleast_2d (values x)) = n_dims e ->
  let x2 := atleast_2d (values x) in
  let m := nrows x2 in
  let n := n_samples e in
  let x_n := query_points e x2 normalize in
  let r := fun k i =>
             astype (dtype_of x)
               (gauss_corr (thetas e) (row x_n k) (row (X e) i)) in
  exists s2 Ri y rmse,
    (SigmaSqr e = Some s2 /\ R_inv e = Some Ri) /\
    predict e x true normalize = Ok (PMeanRmse y rmse) /\
    (nrows y = m /\ ncols y = 1%nat) /\
    (fnrows rmse = m /\ fncols rmse = m) /\
    forall k l, (k < m)%nat -> (l < m)%nat ->
      let rRr := rsum n (fun i => r k i * rsum n (fun j => at2 Ri i j * r l j)) in
      let oneRr := rsum n (fun i => rsum n (fun j => at2 Ri i j * r l j)) in
      let oneRone := rsum n (fun i => rsum n (fun j => at2 Ri i j)) in
      let mse := at2 s2 0 0 * (1 - rRr + (1 - oneRr) ^ 2 / oneRone) in
      fat2 rmse k l = Num (sqrt (if Rlt_dec mse 0 then 0 else mse)).
Proof.
  intros Htr Hx x2 m n x_n r.
  destruct (predict_run e 1 x true normalize Htr Hx)
    as (rt & mu_ & c & s2 & Ri & (Emu & Ec & Es2 & ERi) & (Hr & Hc & Hat)
        & Hrun).
  cbv zeta in Hrun. fold x2 x_n m in Hat, Hrun, Hc.
  destruct Htr as (_ & _ & _ & _ & Hth & _ & _ & Hcs & Hms & Hss & HRs & _).
  rewrite Es2 in Hss. rewrite ERi in HRs. cbn in Hss, HRs.
  injection Hss as Hsr Hsc. injection HRs as HRr HRc.
  rewrite (broadcast2_ok Rmult _ _ m m) in Hrun
    by (cbn [elementwise2 nrows ncols]; rewrite ?Hsr, ?Hsc;
        auto using bdim_one_l).
  cbn [Py.bind] in Hrun.
  exists s2, Ri. eexists. eexists.
  split; [auto|]. split; [exact Hrun|].
  split; [split; reflexivity|]. split; [split; reflexivity|].
  intros k l Hk Hl. cbv zeta.
  cbn [sqrt2 fat2 map2 clamp_negative elementwise2 at2 matmul transpose
       ones2 nrows ncols].
  rewrite np_sqrt_clamped.
  rewrite Hsr, Hsc, Hr, Hc, HRc, !(bidx_in _ k Hk), !(bidx_in _ l Hl).
  cbn [bidx Nat.eqb]. rewrite !one_point_zero.
  fold n.
  assert (Ea : rsum n (fun i => at2 rt i k
                         * rsum n (fun j => at2 Ri i j * at2 rt j l))
               = rsum n (fun i => r k i
                           * rsum n (fun j => at2 Ri i j * r l j))).
  { apply rsum_ext. intros i Hi. rewrite Hat by assumption. f_equal.
    apply rsum_ext. intros j Hj. rewrite Hat by assumption. reflexivity. }
  assert (Eb : rsum n (fun i => 1 * rsum n (fun j => at2 Ri i j * at2 rt j l))
               = rsum n (fun i => rsum n (fun j => at2 Ri i j * r l j))).
  { apply rsum_ext. intros i Hi. rewrite Rmult_1_l.
    apply rsum_ext. intros j Hj. rewrite Hat by assumption. reflexivity. }
  assert (Ec1 : rsum n (fun i => 1 * rsum n (fun j => at2 Ri i j * 1))
                = rsum n (fun i => rsum n (fun j => at2 Ri i j))).
  { apply rsum_ext. intros i Hi. rewrite Rmult_1_l.
    apply rsum_ext. intros j Hj. ring. }
  rewrite Ea, Eb, Ec1. reflexivity.
Qed.

Lemma predict_rmse_batch_witness :
  exists y rmse,
    predict two_point_engine (float_array (Arr2 (of_rows [[0]; [1]; [2]])))
      true true = Ok (PMeanRmse y rmse) /\
    fnrows rmse = 3%nat /\ fncols rmse = 3%nat.
Proof.
  destruct (predict_rmse_batch two_point_engine
              (float_array (Arr2 (of_rows [[0]; [1]; [2]]))) true)
    as (s2 & Ri & y & rmse & _ & Hrun & _ & [Hr Hc] & _).
  - repeat split; try reflexivity; simpl; lia.
  - reflexivity.
  - exists y, rmse. auto.
Defined.

(** X11. A query whose dimension differs from that of the stored
    statistics (and cannot be broadcast) makes [predict] raise in the
    normalisation step. *)
Theorem predict_wrong_dimension (e : Engine) (x : typed) (eval_rmse : bool) :
  trained e = true ->
  ncols (atleast_2d (values x)) <> len (X_mean e) ->
  ncols (atleast_2d (values x)) <> 1%nat -> len (X_mean e) <> 1%nat ->
  predict e x eval_rmse true = Raise broadcast_error.
Proof.
  intros Htr H1 H2 H3. unfold predict, SurrogateModel_predict.
  rewrite Htr. cbn [Py.bind]. unfold broadcast2 at 1.
  cbn [as_row nrows ncols]. rewrite bdim_one_r. unfold bdim.
  destruct (Nat.eqb_spec (ncols (atleast_2d (values x))) (len (X_mean e)));
    [contradiction|].
  destruct (Nat.eqb_spec (ncols (atleast_2d (values x))) 1);
    [contradiction|].
  destruct (Nat.eqb_spec (len (X_mean e)) 1); [contradiction|].
  reflexivity.
Qed.

Lemma predict_wrong_dimension_witness :
  predict plane_engine (float_array (Arr1 (of_list [1; 2; 3]))) true true
  = Raise broadcast_error.
Proof.
  apply (predict_wrong_dimension plane_engine
           (float_array (Arr1 (of_list [1; 2; 3]))) true).
  - reflexivity.
  - simpl. lia.
  - simpl. lia.
  - simpl. lia.
Defined.

(** X12. On an empty batch the full predictor returns an empty array of
    means, and [FloatKrigingSurrogate.predict] raises [IndexError] when it
    indexes that array with [0]. *)
Theorem float_predict_empty_batch (e : Engine) (n_out : nat) (dt : dtype)
  (m : arr2) :
  trained_engine e n_out -> ncols m = n_dims e -> nrows m = O ->
  (exists y,
     predict e (mk_typed dt (Arr2 m)) false true = Ok (PMean y) /\
     nrows y = O) /\
  FloatKrigingSurrogate_predict e (mk_typed dt (Arr2 m))
  = Raise (IndexError "index out of bounds"%string).
Proof.
  intros Htr Hm H0.
  destruct (predict_mean_ok e n_out (mk_typed dt (Arr2 m)) true Htr Hm)
    as (_ & _ & y & _ & Hrun & [Hyr _] & _).
  cbn [atleast_2d values] in Hyr. rewrite H0 in Hyr.
  split; [exists y; auto|].
  unfold FloatKrigingSurrogate_predict. rewrite Hrun.
  cbn [Py.bind item0]. unfold getrow. rewrite Hyr. reflexivity.
Qed.

Lemma float_predict_empty_batch_witness :
  FloatKrigingSurrogate_predict two_point_engine
    (float_array (Arr2 (zeros2 0 1)))
  = Raise (IndexError "index out of bounds"%string).
Proof.
  apply (float_predict_empty_batch two_point_engine 1 float64 (zeros2 0 1)).
  - repeat split; try reflexivity; simpl; lia.
  - reflexivity.
  - reflexivity.
Defined.

(** X14. As long as [alpha] is the empty array of [__init__] and the
    instance holds at least one training point, [linearize] returns no
    Jacobian for any query, of whatever length. *)
Theorem linearize_never_returns (e : Engine) (q : arr1) (jac : arr2) :
  (1 <= nrows (X e))%nat ->
  alpha e = Arr1 (zeros1 O) ->
  linearize e q <> Ok jac.
Proof.
  intros Hn Hal. unfold linearize.
  destruct (linearize_x_n e q) as [v|ex]; [|discriminate].
  cbn [Py.bind]. unfold linearize_r, linearize_gradr.
  destruct (broadcast2 Rminus (as_row v) (X e)) as [diff|ex] eqn:Hd;
    [|discriminate].
  assert (Hdr : nrows diff = nrows (X e)).
  { unfold broadcast2 in Hd. cbn [as_row nrows] in Hd.
    rewrite bdim_one_l in Hd.
    destruct (bdim _ _); [|discriminate]. injection Hd as <-. reflexivity. }
  cbn [Py.bind].
  destruct (dot_12 (thetas e) (map2 Rsqr (transpose diff))) as [s|ex] eqn:Hs;
    [|discriminate].
  assert (Hsl : len s = nrows (X e)).
  { unfold dot_12 in Hs. destruct (_ =? _)%nat; [|discriminate].
    injection Hs as <-. cbn. exact Hdr. }
  cbn [Py.bind].
  destruct (einsum_i_ij (thetas e) (transpose diff)) as [ein|ex] eqn:He;
    [|discriminate].
  assert (Hec : ncols ein = nrows (X e)).
  { unfold einsum_i_ij in He. destruct (_ =? _)%nat; [|discriminate].
    injection He as <-. cbn. exact Hdr. }
  cbn [Py.bind].
  destruct (broadcast2 Rmult _ ein) as [g|ex] eqn:Hg; [|discriminate].
  assert (Hgc : ncols g = nrows (X e)).
  { unfold broadcast2 in Hg. cbn [as_row map1 nrows ncols len] in Hg.
    rewrite Hsl, Hec, bdim_same in Hg.
    destruct (bdim _ _); [|discriminate]. injection Hg as <-. reflexivity. }
  cbn [Py.bind]. rewrite Hal. unfold dot_2n, dot_21. rewrite Hgc.
  cbn [zeros1 len].
  destruct (Nat.eqb_spec (nrows (X e)) 0) as [E|_]; [lia|]. discriminate.
Qed.

Lemma linearize_never_returns_witness :
  linearize two_point_engine (of_list [1; 2; 3]) <> Ok (zeros2 1 1).
Proof.
  apply (linearize_never_returns two_point_engine (of_list [1; 2; 3])
           (zeros2 1 1)).
  - simpl. lia.
  - reflexivity.
Defined.

(** X16. A nugget array whose length is neither 1 nor the number of
    training points makes the reduced-likelihood evaluator raise when it
    assigns the diagonal of the correlation matrix. *)
Theorem evaluator_rejects_misshaped_nugget (svd : svd_t) (e : Engine)
  (targ : option arr1) (g : arr1) :
  holds_training_set e ->
  len (match targ with None => thetas e | Some t => t end) = n_dims e ->
  nugget e = Arr1 g ->
  len g <> n_samples e -> len g <> 1%nat ->
  _calculate_reduced_likelihood_params svd e targ = Raise assign_error.
Proof.
  intros [HX HD] Hth Hg H1 H2.
  unfold _calculate_reduced_likelihood_params, correlation_matrix.
  rewrite <- HX, <- HD in *.
  destruct (distances_loop (X e)) as (t & Ht & H0 & Hd1 & Hd2 & _).
  rewrite Ht. cbn [Py.bind].
  unfold dot_13. cbn [map3 dim0 dim1 dim2 at3].
  rewrite Hd1, Hth, Nat.eqb_refl. cbn [Py.bind].
  unfold assign_diag_one_plus. cbn [map2 nrows ncols].
  rewrite H0, Hd2, Nat.eqb_refl. cbn [negb]. rewrite Hg.
  unfold fits.
  destruct (Nat.eqb_spec (len g) (nrows (X e))); [contradiction|].
  destruct (Nat.eqb_spec (len g) 1); [contradiction|].
  reflexivity.
Qed.

Lemma evaluator_rejects_misshaped_nugget_witness :
  _calculate_reduced_likelihood_params unit_factors long_nugget_engine None
  = Raise assign_error.
Proof.
  apply (evaluator_rejects_misshaped_nugget unit_factors long_nugget_engine
           None (of_list [0.1; 0.1; 0.1])).
  - split; reflexivity.
  - reflexivity.
  - reflexivity.
  - simpl. lia.
  - simpl. lia.
Defined.

(** X17. The loop over the samples fills the distance tensor with
    [|X[i,d] - X[j,d]|] for every pair of samples: it is symmetric in the
    two sample indices and zero where they are equal. *)
Theorem distance_tensor_entries (X : arr2) :
  exists t,
    for_range (nrows X) (distances_step X)
      (zeros3 (nrows X) (ncols X) (nrows X)) = Ok t /\
    (dim0 t = nrows X /\ dim1 t = ncols X /\ dim2 t = nrows X) /\
    forall i d j, (i < nrows X)%nat -> (d < ncols X)%nat -> (j < nrows X)%nat ->
      at3 t i d j = Rabs (at2 X i d - at2 X j d) /\
      at3 t i d j = at3 t j d i /\
      at3 t i d i = 0.
Proof.
  destruct (distances_loop X) as (t & Ht & H0 & H1 & H2 & Hat).
  exists t. split; [exact Ht|]. split; [auto|].
  assert (Habs : forall i d j, (i < nrows X)%nat -> (d < ncols X)%nat ->
            (j < nrows X)%nat ->
            at3 t i d j = Rabs (at2 X i d - at2 X j d)).
  { intros i d j Hi Hd Hj. rewrite Hat by assumption.
    destruct (Nat.ltb_spec i j), (Nat.ltb_spec j i),
      (Nat.ltb_spec i (nrows X)), (Nat.ltb_spec j (nrows X));
      cbn [andb]; try lia; try reflexivity.
    - apply Rabs_minus_sym.
    - assert (i = j) by lia. subst j.
      rewrite Rminus_diag, Rabs_R0. reflexivity. }
  intros i d j Hi Hd Hj. split; [apply Habs; assumption|]. split.
  - rewrite !Habs by assumption. apply Rabs_minus_sym.
  - rewrite Habs by assumption. rewrite Rminus_diag. apply Rabs_R0.
Qed.

Lemma distance_tensor_entries_witness :
  exists t,
    for_range 2 (distances_step (of_rows [[0]; [3]])) (zeros3 2 1 2) = Ok t /\
    at3 t 0 0 1 = Rabs (0 - 3).
Proof.
  destruct (distance_tensor_entries (of_rows [[0]; [3]]))
    as (t & Ht & _ & Hat).
  exists t. split; [exact Ht|].
  apply (Hat 0%nat 0%nat 1%nat); simpl; lia.
Defined.
